(** * bazeldnf: the repository fetcher ([pkg/repo/fetch.go])

    A shallow embedding of [RepoFetcherImpl] and of the parts of [pkg/api]
    it reads, with the network, the cache directory and the logger made
    explicit as a state, followed by the properties of the fetch pipeline. *)

From Stdlib Require Import ZArith List String Ascii Lia.
From stdpp Require Import base option list gmap strings.
Import ListNotations.

Local Open Scope string_scope.
Local Open Scope list_scope.

(** ** Go values

    A Go [error] is carried by its message; [nil] is [None].  A pair
    [(T, error)] whose value is only meaningful when the error is [nil]
    is a [result]. *)

Definition error := option string.

Inductive result (A : Type) : Type :=
| Ok (a : A)
| Err (msg : string).
Arguments Ok {A} a.
Arguments Err {A} msg.

(** ** Package [strings] *)

Module strings.

Definition HasPrefix (s prefix : string) : bool := String.prefix prefix s.

(** [Contains s substr]: [substr] occurs somewhere within [s]. *)
Fixpoint Contains (s substr : string) : bool :=
  String.prefix substr s ||
  match s with
  | EmptyString => false
  | String _ s' => Contains s' substr
  end.

(** [TrimSuffix s suffix]: [s] without the trailing [suffix], or [s]
    itself when it does not end with [suffix]. *)
Fixpoint TrimSuffix (s suffix : string) : string :=
  if decide (s = suffix) then EmptyString
  else match s with
       | EmptyString => EmptyString
       | String c s' => String c (TrimSuffix s' suffix)
       end.

Fixpoint Join (elems : list string) (sep : string) : string :=
  match elems with
  | [] => ""
  | [e] => e
  | e :: rest => e +:+ sep +:+ Join rest sep
  end.

End strings.

(** ** Package [path] (and [filepath.Base], which agrees with [path.Base]
    where the separator is the slash) *)

Module path.

Definition slash : ascii := "/"%char.

Definition IsAbs (p : string) : bool :=
  match p with
  | String c _ => bool_decide (c = slash)
  | EmptyString => false
  end.

(** The components between slashes; [Split] cuts after the last slash. *)
Fixpoint components (p : string) : list string :=
  match p with
  | EmptyString => [EmptyString]
  | String c p' =>
      if decide (c = slash) then EmptyString :: components p'
      else match components p' with
           | x :: xs => String c x :: xs
           | [] => [String c EmptyString]
           end
  end.

Fixpoint Split (p : string) : string * string :=
  match p with
  | EmptyString => (EmptyString, EmptyString)
  | String c p' =>
      let '(dir, file) := Split p' in
      match dir with
      | EmptyString =>
          if decide (c = slash) then (String c EmptyString, file)
          else (EmptyString, String c file)
      | _ => (String c dir, file)
      end
  end.

(** One element of the path consumed by [Clean]; [out] is the output
    written so far, last element first. *)
Definition clean_elem (rooted : bool) (out : list string) (e : string)
  : list string :=
  if decide (e = "") then out
  else if decide (e = ".") then out
  else if decide (e = "..") then
    match out with
    | top :: below =>
        if decide (top = "..") then e :: out else below
    | [] => if rooted then [] else [e]
    end
  else e :: out.

Definition Clean (p : string) : string :=
  if decide (p = "") then "."
  else
    let rooted := IsAbs p in
    let out := rev (fold_left (clean_elem rooted) (components p) []) in
    if rooted then "/" +:+ strings.Join out "/"
    else if decide (out = []) then "." else strings.Join out "/".

Definition Dir (p : string) : string := Clean (fst (Split p)).

(** [Join] of two elements, as [fetchFile] calls it. *)
Definition Join (a b : string) : string :=
  match decide (a = ""), decide (b = "") with
  | left _, left _ => ""
  | left _, right _ => Clean b
  | right _, left _ => Clean a
  | right _, right _ => Clean (a +:+ "/" +:+ b)
  end.

Fixpoint trim_slashes (p : string) : string :=
  match p with
  | EmptyString => EmptyString
  | String c p' =>
      match trim_slashes p' with
      | EmptyString => if decide (c = slash) then EmptyString else String c EmptyString
      | t => String c t
      end
  end.

Definition Base (p : string) : string :=
  if decide (p = "") then "."
  else
    let p := snd (Split (trim_slashes p)) in
    if decide (p = "") then "/" else p.

End path.

(** ** Package [crypto/sha256] and [encoding/hex]

    The digest is computed on 32-bit words held in [Z], every addition
    reduced with [w32]. *)

Module sha256.

Local Open Scope Z_scope.

Definition w32 (x : Z) : Z := Z.land x 0xffffffff.
Definition add32 (x y : Z) : Z := w32 (x + y).
Definition rotr (n x : Z) : Z :=
  w32 (Z.lor (Z.shiftr x n) (Z.shiftl x (32 - n))).
Definition not32 (x : Z) : Z := Z.lxor x 0xffffffff.

Definition Ch (x y z : Z) : Z := Z.lxor (Z.land x y) (Z.land (not32 x) z).
Definition Maj (x y z : Z) : Z :=
  Z.lxor (Z.lxor (Z.land x y) (Z.land x z)) (Z.land y z).
Definition Sigma0 (x : Z) : Z :=
  Z.lxor (Z.lxor (rotr 2 x) (rotr 13 x)) (rotr 22 x).
Definition Sigma1 (x : Z) : Z :=
  Z.lxor (Z.lxor (rotr 6 x) (rotr 11 x)) (rotr 25 x).
Definition sigma0 (x : Z) : Z :=
  Z.lxor (Z.lxor (rotr 7 x) (rotr 18 x)) (Z.shiftr x 3).
Definition sigma1 (x : Z) : Z :=
  Z.lxor (Z.lxor (rotr 17 x) (rotr 19 x)) (Z.shiftr x 10).

(** The first 64 primes.  The round constants are the first 32 bits of the
    fractional parts of their cube roots, the initial hash value those of
    the square roots of the first 8. *)
Definition primes : list Z :=
  [ 2; 3; 5; 7; 11; 13; 17; 19; 23; 29; 31; 37; 41; 43; 47; 53;
    59; 61; 67; 71; 73; 79; 83; 89; 97; 101; 103; 107; 109; 113; 127; 131;
    137; 139; 149; 151; 157; 163; 167; 173; 179; 181; 191; 193; 197; 199;
    211; 223; 227; 229; 233; 239; 241; 251; 257; 263; 269; 271; 277; 281;
    283; 293; 307; 311 ].

(** The integer cube root below 2^bits, found bit by bit. *)
Fixpoint cbrt (bits : nat) (n r : Z) : Z :=
  match bits with
  | O => r
  | S b =>
      let r' := r + 2 ^ Z.of_nat b in
      cbrt b n (if r' * r' * r' <=? n then r' else r)
  end.

Definition K : list Z :=
  Eval vm_compute in map (fun p => w32 (cbrt 36 (p * 2 ^ 96) 0)) primes.

Definition init : list Z :=
  Eval vm_compute in map (fun p => w32 (Z.sqrt (p * 2 ^ 64))) (firstn 8 primes).

(** One round on the working variables and the window W[t..t+15] of the
    message schedule; the window slides by one word. *)
Definition round (st : list Z * list Z) (k : Z) : list Z * list Z :=
  match st with
  | ([a; b; c; d; e; f; g; h],
     (w0 :: w1 :: _ :: _ :: _ :: _ :: _ :: _ :: _ :: w9
         :: _ :: _ :: _ :: _ :: w14 :: _ :: nil) as win) =>
      let t1 := add32 (add32 (add32 (add32 h (Sigma1 e)) (Ch e f g)) k) w0 in
      let t2 := add32 (Sigma0 a) (Maj a b c) in
      let wn := add32 (add32 (add32 (sigma1 w14) w9) (sigma0 w1)) w0 in
      ([add32 t1 t2; a; b; c; add32 d t1; e; f; g], tl win ++ [wn])
  | _ => st
  end.

Definition block (h : list Z) (ws : list Z) : list Z :=
  zip_with add32 h (fst (fold_left round K (h, ws))).

(** [n] big-endian bytes of [x]. *)
Fixpoint be (n : nat) (x : Z) : list Z :=
  match n with
  | O => []
  | S n' => be n' (Z.shiftr x 8) ++ [Z.land x 0xff]
  end.

Fixpoint words (bs : list Z) (fuel : nat) : list Z :=
  match fuel, bs with
  | S fuel', b0 :: b1 :: b2 :: b3 :: rest =>
      Z.lor (Z.lor (Z.lor (Z.shiftl b0 24) (Z.shiftl b1 16)) (Z.shiftl b2 8)) b3
        :: words rest fuel'
  | _, _ => []
  end.

Fixpoint blocks (h : list Z) (ws : list Z) (fuel : nat) : list Z :=
  match fuel with
  | O => h
  | S fuel' =>
      match ws with
      | [] => h
      | _ => blocks (block h (firstn 16 ws)) (skipn 16 ws) fuel'
      end
  end.

Definition pad (bs : list Z) : list Z :=
  let len := Z.of_nat (length bs) in
  bs ++ [0x80] ++ repeat 0 (Z.to_nat ((55 - len) mod 64)) ++ be 8 (len * 8).

(** The 32 bytes of the digest of the bytes written to the hash. *)
Definition Sum (bs : list Z) : list Z :=
  let p := pad bs in
  let ws := words p (length p) in
  flat_map (be 4) (blocks init ws (length ws)).

End sha256.

Module hex.

Local Open Scope Z_scope.

Definition digit (n : Z) : ascii :=
  ascii_of_N (Z.to_N (if n <? 10 then 48 + n else 87 + n)).

Fixpoint EncodeToString (bs : list Z) : string :=
  match bs with
  | [] => EmptyString
  | b :: bs' =>
      String (digit (Z.shiftr b 4))
        (String (digit (Z.land b 15)) (EncodeToString bs'))
  end.

End hex.

Definition bytes_of (s : string) : list Z :=
  map (fun c => Z.of_N (N_of_ascii c)) (list_ascii_of_string s).

(** [toHex] of a hash into which [written] has been written. *)
Definition toHex (written : string) : string :=
  hex.EncodeToString (sha256.Sum (bytes_of written)).

(** ** Package [pkg/api]: the documents the fetcher reads

    Anonymous nested structs are flattened into their parent with an
    underscore ([Checksum.Type] is [Checksum_Type]). *)

Module api.

Module URL.
Record t := {
  Text : string;
  Protocol : string;
  Type_ : string;
  Location : string;
  Preference : string;
}.
End URL.

Module File.
Record t := {
  Name : string;
  Resources_URLs : list URL.t;
}.
End File.

Module Metalink.
Record t := {
  XMLName : string;
  Files_File : list File.t;
}.
End Metalink.

Module Data.
Record t := {
  Text : string;
  Type_ : string;
  Checksum_Text : string;
  Checksum_Type : string;
  OpenChecksum_Text : string;
  OpenChecksum_Type : string;
  Location_Text : string;
  Location_Href : string;
  Timestamp : string;
  Size : string;
  OpenSize : string;
  DatabaseVersion : string;
  HeaderChecksum_Text : string;
  HeaderChecksum_Type : string;
  HeaderSize : string;
}.
End Data.

Module Repomd.
Record t := {
  XMLName : string;
  Text : string;
  Xmlns : string;
  Rpm : string;
  Revision : string;
  Data : list Data.t;
}.
End Repomd.

(** Modelled from the spec: the file-type constants of [pkg/api] are not
    among the sources; the required metadata file types are "primary"
    and "filelists". *)
Definition PrimaryFileType : string := "primary".
Definition FilelistsFileType : string := "filelists".

End api.

(** ** The methods of [pkg/api] that [fetch.go] calls *)

(** Modelled from the spec: [Repomd.File] is not among the sources; it
    looks up the entry of a metadata file type in the index. *)
Definition Repomd_File (r : api.Repomd.t) (fileType : string) : option api.Data.t :=
  List.find (fun data => bool_decide (api.Data.Type_ data = fileType)) (api.Repomd.Data r).

(** Modelled from the spec: [Metalink.Repomod] is not among the sources; it
    is the entry of the metalink that references the repository index
    file, the only one consulted. *)
Definition Metalink_Repomod (m : api.Metalink.t) : option api.File.t :=
  List.find (fun file => bool_decide (api.File.Name file = "repomd.xml"))
    (api.Metalink.Files_File m).

(** Modelled from the spec: [Data.SHA256] is not among the sources; it is
    the expected digest of an index entry, and an entry whose checksum
    algorithm the verifier does not know is an error. *)
Definition Data_SHA256 (d : api.Data.t) : result string :=
  if decide (api.Data.Checksum_Type d = "sha256")
  then Ok (api.Data.Checksum_Text d)
  else Err "no sha256 found".

(** ** Package [net/url] and the repository configuration *)

Module url.
Record URL := {
  Scheme : string;
  Opaque : string;
  User : string;
  Host : string;
  Path : string;
  RawPath : string;
  RawQuery : string;
  Fragment : string;
}.

(** The assignment [u.Path = p]. *)
Definition set_Path (u : URL) (p : string) : URL :=
  {| Scheme := Scheme u; Opaque := Opaque u; User := User u; Host := Host u;
     Path := p; RawPath := RawPath u; RawQuery := RawQuery u;
     Fragment := Fragment u |}.
End url.

Module bazeldnf.
(** Modelled from the spec: the configuration type is not among the
    sources; a repository has an identity and either a metalink URL or a
    direct base URL. *)
Record Repository := {
  Name : string;
  Metalink : string;
  Baseurl : string;
}.
End bazeldnf.

(** ** The world the fetcher runs in *)

(** A byte stream: the bytes it delivers, and the read error that ends it
    when it does not end with end-of-file. *)
Record Reader := {
  delivered : string;
  failure : error;
}.

Record Response := { Body : Reader }.

Inductive Level := InfoLevel | ErrorLevel | FatalLevel.

Record World := {
  (** the URLs passed to [Getter.Get], oldest first *)
  requests : list string;
  (** the cache: (repository name, file name) to contents *)
  files : gmap (string * string) string;
  (** the cache files that cannot be created, each with the error *)
  faults : gmap (string * string) string;
  (** the logger's output, oldest first *)
  logs : list (Level * string);
}.

Definition add_request (u : string) (w : World) : World :=
  {| requests := requests w ++ [u]; files := files w; faults := faults w;
     logs := logs w |}.

Definition add_log (l : Level) (msg : string) (w : World) : World :=
  {| requests := requests w; files := files w; faults := faults w;
     logs := logs w ++ [(l, msg)] |}.

Definition put_file (key : string * string) (contents : string) (w : World) : World :=
  {| requests := requests w; files := <[key := contents]> (files w);
     faults := faults w; logs := logs w |}.

(** A call either returns, or the process ends: [log.Fatalf] exits, a nil
    dereference panics. *)
Inductive outcome (A : Type) : Type :=
| Return (a : A)
| Exit
| Panic.
Arguments Return {A} a.
Arguments Exit {A}.
Arguments Panic {A}.

Definition M (A : Type) : Type := World -> outcome A * World.

Definition ret {A} (a : A) : M A := fun w => (Return a, w).

Definition bind {A B} (m : M A) (k : A -> M B) : M B :=
  fun w =>
    match m w with
    | (Return a, w') => k a w'
    | (Exit, w') => (Exit, w')
    | (Panic, w') => (Panic, w')
    end.

Notation "x <- m ;; k" := (bind m (fun x => k))
  (at level 100, m at next level, right associativity).

(** A [Getter] answers a URL, possibly differently on each call: it is
    given the requests made before. *)
Definition Getter := list string -> string -> result Response.

Record CacheHelper := { CacheDir : string }.

Record RepoFetcherImpl := {
  Getter_ : Getter;
  Repos : list bazeldnf.Repository;
  CacheHelper_ : CacheHelper;
}.

(** What the fetcher takes from outside the repository's sources: URL
    parsing and printing ([net/url]), XML decoding ([encoding/xml]), and the
    expected checksum a metalink entry states, whose accessor
    [File.SHA256] is absent from the sources. *)
Class Externals := {
  url_Parse : string -> result url.URL;
  URL_String : url.URL -> string;
  xml_Unmarshal_Metalink : string -> result api.Metalink.t;
  xml_Unmarshal_Repomd : string -> result api.Repomd.t;
  File_SHA256 : api.File.t -> result string;
}.

Module log.
Definition Infof (msg : string) : M unit := fun w => (Return tt, add_log InfoLevel msg w).
Definition Errorf (msg : string) : M unit := fun w => (Return tt, add_log ErrorLevel msg w).
Definition Fatalf {A} (msg : string) : M A := fun w => (Exit, add_log FatalLevel msg w).
End log.

Definition Get (r : RepoFetcherImpl) (u : string) : M (result Response) :=
  fun w => (Return (Getter_ r (requests w) u), add_request u w).

(** ** [CacheHelper]

    The cache helper is not among the sources.  By the spec every fetched
    byte stream is persisted to stable storage keyed by repository identity
    and file name before being parsed, and is read back from there; writing
    again overwrites the prior contents. *)

(** Modelled from the spec: [WriteToRepoDir] stores the bytes it reads from
    [body] under the repository and the file name; a stream that ends with
    a read error leaves the bytes delivered before it.  It returns, with
    its error, the bytes it has read: they are what a [TeeReader] around
    [body] has written to its hash. *)
Definition WriteToRepoDir (c : CacheHelper) (repo : bazeldnf.Repository)
    (body : Reader) (name : string) : M (string * error) :=
  fun w =>
    match faults w !! (bazeldnf.Name repo, name) with
    | Some err => (Return ("", Some err), w)
    | None =>
        (Return (delivered body, failure body),
         put_file (bazeldnf.Name repo, name) (delivered body) w)
    end.

Section Fetcher.

Context {ext : Externals}.

(** Modelled from the spec: [LoadMetaLink] reads the stored metalink back
    and decodes it. *)
Definition LoadMetaLink (c : CacheHelper) (repo : bazeldnf.Repository)
  : M (result api.Metalink.t) :=
  fun w =>
    match files w !! (bazeldnf.Name repo, "metalink") with
    | None => (Return (Err "open metalink: no such file or directory"), w)
    | Some doc => (Return (xml_Unmarshal_Metalink doc), w)
    end.

(** Modelled from the spec: [UnmarshalFromRepoDir] reads a stored file back
    and decodes it, here into a [Repomd]. *)
Definition UnmarshalFromRepoDir (c : CacheHelper) (repo : bazeldnf.Repository)
    (name : string) : M (result api.Repomd.t) :=
  fun w =>
    match files w !! (bazeldnf.Name repo, name) with
    | None => (Return (Err ("open " +:+ name +:+ ": no such file or directory")), w)
    | Some doc => (Return (xml_Unmarshal_Repomd doc), w)
    end.

(** ** [pkg/repo/fetch.go] *)

(** The loop of [resolveMetaLink] over [repomod.Resources.URLs]. *)
Definition https_urls (URLs : list api.URL.t) : list string :=
  fold_left
    (fun urls u =>
       if decide (api.URL.Protocol u ≠ "https") then urls
       else urls ++ [api.URL.Text u])
    URLs [].

Definition resolveMetaLink (r : RepoFetcherImpl) (repo : bazeldnf.Repository)
  : M (option api.Metalink.t * list string * error) :=
  g <- Get r (bazeldnf.Metalink repo) ;;
  match g with
  | Err err => ret (None, [], Some err)
  | Ok resp =>
      wr <- WriteToRepoDir (CacheHelper_ r) repo (Body resp) "metalink" ;;
      match snd wr with
      | Some err => ret (None, [], Some err)
      | None =>
          l <- LoadMetaLink (CacheHelper_ r) repo ;;
          match l with
          | Err err => ret (None, [], Some err)
          | Ok metalink =>
              match Metalink_Repomod metalink with
              | None =>
                  ret (None, [], Some "Metalink file contains no reference to repod.xml")
              | Some repomod =>
                  let urls := https_urls (api.File.Resources_URLs repomod) in
                  if decide (length urls = 0)
                  then ret (Some metalink, [],
                            Some "Metalink contains no https url to a rpomd.xml file")
                  else ret (Some metalink, urls, None)
              end
          end
      end
  end.

(** How one iteration of the loop of [resolveRepomd] ends. *)
Inductive iteration :=
| Continue
| Break (repomd : api.Repomd.t) (mirror : url.URL)
| ReturnErr (err : string).

Definition mismatch (expected actual : string) : string :=
  "Expected sha256 sum " +:+ expected +:+ ", but got " +:+ actual.

Definition resolveRepomd_iter (r : RepoFetcherImpl) (repo : bazeldnf.Repository)
    (sha256sum : string) (u : string) : M iteration :=
  _ <- log.Infof ("Resolving repomd.xml from " +:+ u) ;;
  g <- Get r u ;;
  match g with
  | Err err =>
      _ <- log.Errorf ("Failed to resolve repomd.xml from " +:+ u +:+ ": " +:+ err) ;;
      ret Continue
  | Ok resp =>
      wr <- WriteToRepoDir (CacheHelper_ r) repo (Body resp) "repomd.xml" ;;
      match snd wr with
      | Some err =>
          _ <- log.Errorf ("Failed to save repomd.xml from " +:+ u +:+ ": " +:+ err) ;;
          ret Continue
      | None =>
          let sha := fst wr in
          if decide (sha256sum ≠ "" ∧ toHex sha ≠ sha256sum)
          then ret (ReturnErr (mismatch sha256sum (toHex sha)))
          else
            f <- UnmarshalFromRepoDir (CacheHelper_ r) repo "repomd.xml" ;;
            match f with
            | Err err =>
                _ <- log.Errorf ("Failed to decode repomd.xml from " +:+ u +:+ ": " +:+ err) ;;
                ret Continue
            | Ok file =>
                match url_Parse u with
                | Err err =>
                    log.Fatalf ("Invalid URL for repomd.xml from " +:+ u
                                +:+ ", this should be impossible: " +:+ err)
                | Ok mirror => ret (Break file mirror)
                end
            end
      end
  end.

(** The loop: [Ok None] when it runs to its end with [repomd == nil]. *)
Fixpoint resolveRepomd_loop (r : RepoFetcherImpl) (repo : bazeldnf.Repository)
    (repomdURLs : list string) (sha256sum : string)
  : M (result (option (api.Repomd.t * url.URL))) :=
  match repomdURLs with
  | [] => ret (Ok None)
  | u :: rest =>
      it <- resolveRepomd_iter r repo sha256sum u ;;
      match it with
      | Continue => resolveRepomd_loop r repo rest sha256sum
      | Break repomd mirror => ret (Ok (Some (repomd, mirror)))
      | ReturnErr err => ret (Err err)
      end
  end.

Definition exhausted : string := "All mirrors tried, could not download repomd.xml".

Definition resolveRepomd (r : RepoFetcherImpl) (repo : bazeldnf.Repository)
    (repomdURLs : list string) (sha256sum : string)
  : M (result (api.Repomd.t * url.URL)) :=
  l <- resolveRepomd_loop r repo repomdURLs sha256sum ;;
  match l with
  | Err err => ret (Err err)
  | Ok None => ret (Err exhausted)
  | Ok (Some (repomd, mirror)) =>
      ret (Ok (repomd,
               url.set_Path mirror
                 (strings.TrimSuffix (path.Dir (url.Path mirror)) "repodata")))
  end.

(** The URL [fetchFile] requests for a location. *)
Definition fileURL_of (mirror : url.URL) (href : string) : string :=
  if negb (path.IsAbs href)
  then URL_String (url.set_Path mirror (path.Join (url.Path mirror) href))
  else href.

Definition fetchFile (r : RepoFetcherImpl) (fileType : string)
    (repo : bazeldnf.Repository) (repomd : api.Repomd.t) (mirror : url.URL)
  : M error :=
  match Repomd_File repomd fileType with
  | None => ret (Some "No 'file' file referenced in repomd")
  | Some file =>
      if decide (api.Data.Location_Href file = "")
      then ret (Some "The 'file' file has no href associated")
      else
        let fileURL := fileURL_of mirror (api.Data.Location_Href file) in
        let fileName := path.Base (api.Data.Location_Href file) in
        _ <- log.Infof ("Loading " +:+ fileType +:+ " file from " +:+ fileURL) ;;
        g <- Get r fileURL ;;
        match g with
        | Err err =>
            ret (Some ("Failed to load promary repository file from "
                       +:+ fileURL +:+ ": " +:+ err))
        | Ok resp =>
            wr <- WriteToRepoDir (CacheHelper_ r) repo (Body resp) fileName ;;
            match snd wr with
            | Some err =>
                ret (Some ("Failed to write file.xml from " +:+ fileURL
                           +:+ " to file: " +:+ err))
            | None =>
                let sha := fst wr in
                match Data_SHA256 file with
                | Err err => ret (Some ("failed to get sha256sum of file: " +:+ err))
                | Ok sha256sum =>
                    if decide (sha256sum ≠ toHex sha)
                    then ret (Some (mismatch sha256sum (toHex sha)))
                    else ret None
                end
            end
        end
  end.

(** The first part of the body of the loop of [Fetch]: the candidate
    index URLs and the expected checksum of the index, or the error
    [Fetch] returns. *)
Definition Fetch_sources (r : RepoFetcherImpl) (repo : bazeldnf.Repository)
  : M (result (list string * string)) :=
  if decide (bazeldnf.Metalink repo ≠ "") then
    res <- resolveMetaLink r repo ;;
    match res with
    | (_, _, Some err) =>
        ret (Err ("failed to resolve metalink for " +:+ bazeldnf.Name repo
                  +:+ ": " +:+ err))
    | (metalink, repomdURLs, None) =>
        match metalink ≫= Metalink_Repomod with
        | None => fun w => (Panic, w)
        | Some repomod =>
            match File_SHA256 repomod with
            | Err err => ret (Err ("failed to get sha256sum of repomd file: " +:+ err))
            | Ok sha256sum => ret (Ok (repomdURLs, sha256sum))
            end
        end
    end
  else if decide (bazeldnf.Baseurl repo ≠ "") then
    ret (Ok ([strings.TrimSuffix (bazeldnf.Baseurl repo) "/" +:+ "/repodata/repomd.xml"], ""))
  else ret (Ok ([], "")).

(** The body of the loop of [Fetch]: [Some err] is [return err]. *)
Definition Fetch_repo (r : RepoFetcherImpl) (repo : bazeldnf.Repository) : M error :=
  src <- Fetch_sources r repo ;;
  match src with
  | Err err => ret (Some err)
  | Ok (repomdURLs, sha256sum) =>
      res <- resolveRepomd r repo repomdURLs sha256sum ;;
      match res with
      | Err err =>
          ret (Some ("failed to fetch repomd.xml for " +:+ bazeldnf.Name repo
                     +:+ ": " +:+ err))
      | Ok (repomd, mirror) =>
          err <- fetchFile r api.PrimaryFileType repo repomd mirror ;;
          match err with
          | Some err =>
              ret (Some ("failed to fetch primary.xml for " +:+ bazeldnf.Name repo
                         +:+ ": " +:+ err))
          | None =>
              err <- fetchFile r api.FilelistsFileType repo repomd mirror ;;
              match err with
              | Some err =>
                  ret (Some ("failed to fetch filelists.xml for "
                             +:+ bazeldnf.Name repo +:+ ": " +:+ err))
              | None => ret None
              end
          end
      end
  end.

Fixpoint Fetch_loop (r : RepoFetcherImpl) (repos : list bazeldnf.Repository) : M error :=
  match repos with
  | [] => ret None
  | repo :: rest =>
      err <- Fetch_repo r repo ;;
      match err with
      | Some err => ret (Some err)
      | None => Fetch_loop r rest
      end
  end.

Definition Fetch (r : RepoFetcherImpl) : M error := Fetch_loop r (Repos r).

End Fetcher.

(** ** How the steps of the fetcher end *)

Section Outcomes.

Context {ext : Externals}.

(** The world once a candidate has been announced in the log and
    requested. *)
Definition announced (u : string) (w : World) : World :=
  add_request u (add_log InfoLevel ("Resolving repomd.xml from " +:+ u) w).

Definition index_key (repo : bazeldnf.Repository) : string * string :=
  (bazeldnf.Name repo, "repomd.xml").

(** The checksum test of [resolveRepomd] lets the bytes [sha] pass. *)
Definition sum_accepts (sha256sum sha : string) : Prop :=
  ~ (sha256sum ≠ "" ∧ toHex sha ≠ sha256sum).

(** [mirror_fails r repo sum u w w']: from [w], the candidate [u] fails
    through the network, on writing, or on parsing, and leaves [w']. *)
Inductive mirror_fails (r : RepoFetcherImpl) (repo : bazeldnf.Repository)
    (sha256sum u : string) (w : World) : World -> Prop :=
| network_failure err :
    Getter_ r (requests w) u = Err err ->
    mirror_fails r repo sha256sum u w
      (add_log ErrorLevel
         ("Failed to resolve repomd.xml from " +:+ u +:+ ": " +:+ err)
         (announced u w))
| create_failure resp err :
    Getter_ r (requests w) u = Ok resp ->
    faults w !! index_key repo = Some err ->
    mirror_fails r repo sha256sum u w
      (add_log ErrorLevel
         ("Failed to save repomd.xml from " +:+ u +:+ ": " +:+ err)
         (announced u w))
| stream_failure resp err :
    Getter_ r (requests w) u = Ok resp ->
    faults w !! index_key repo = None ->
    failure (Body resp) = Some err ->
    mirror_fails r repo sha256sum u w
      (add_log ErrorLevel
         ("Failed to save repomd.xml from " +:+ u +:+ ": " +:+ err)
         (put_file (index_key repo) (delivered (Body resp)) (announced u w)))
| parse_failure resp err :
    Getter_ r (requests w) u = Ok resp ->
    faults w !! index_key repo = None ->
    failure (Body resp) = None ->
    sum_accepts sha256sum (delivered (Body resp)) ->
    xml_Unmarshal_Repomd (delivered (Body resp)) = Err err ->
    mirror_fails r repo sha256sum u w
      (add_log ErrorLevel
         ("Failed to decode repomd.xml from " +:+ u +:+ ": " +:+ err)
         (put_file (index_key repo) (delivered (Body resp)) (announced u w))).

(** Every candidate of the list fails, one after the other. *)
Inductive mirrors_fail (r : RepoFetcherImpl) (repo : bazeldnf.Repository)
    (sha256sum : string) : list string -> World -> World -> Prop :=
| fail_nil w : mirrors_fail r repo sha256sum [] w w
| fail_cons u rest w w1 w2 :
    mirror_fails r repo sha256sum u w w1 ->
    mirrors_fail r repo sha256sum rest w1 w2 ->
    mirrors_fail r repo sha256sum (u :: rest) w w2.

(** The candidate [u] is fetched and stored whole, with the body [sha]. *)
Definition index_fetched (r : RepoFetcherImpl) (repo : bazeldnf.Repository)
    (u : string) (w : World) (sha : string) : Prop :=
  exists resp,
    Getter_ r (requests w) u = Ok resp
    /\ faults w !! index_key repo = None
    /\ failure (Body resp) = None
    /\ delivered (Body resp) = sha.

(** The ways one iteration of [resolveRepomd] ends. *)
Inductive iter_ends (r : RepoFetcherImpl) (repo : bazeldnf.Repository)
    (sha256sum u : string) (w : World) : outcome iteration -> World -> Prop :=
| ends_failed w' :
    mirror_fails r repo sha256sum u w w' ->
    iter_ends r repo sha256sum u w (Return Continue) w'
| ends_mismatch sha :
    index_fetched r repo u w sha ->
    sha256sum ≠ "" -> toHex sha ≠ sha256sum ->
    iter_ends r repo sha256sum u w
      (Return (ReturnErr (mismatch sha256sum (toHex sha))))
      (put_file (index_key repo) sha (announced u w))
| ends_found sha file mirror :
    index_fetched r repo u w sha ->
    sum_accepts sha256sum sha ->
    xml_Unmarshal_Repomd sha = Ok file ->
    url_Parse u = Ok mirror ->
    iter_ends r repo sha256sum u w (Return (Break file mirror))
      (put_file (index_key repo) sha (announced u w))
| ends_fatal sha file err :
    index_fetched r repo u w sha ->
    sum_accepts sha256sum sha ->
    xml_Unmarshal_Repomd sha = Ok file ->
    url_Parse u = Err err ->
    iter_ends r repo sha256sum u w Exit
      (add_log FatalLevel
         ("Invalid URL for repomd.xml from " +:+ u
          +:+ ", this should be impossible: " +:+ err)
         (put_file (index_key repo) sha (announced u w))).

(** An error message of the checksum-mismatch kind. *)
Definition is_ChecksumMismatch (err : string) : bool :=
  strings.HasPrefix err "Expected sha256 sum ".

(** The three failures of a typed metadata file that the index or the
    fetched bytes cause: no entry, no location, a digest that differs. *)
Inductive typed_failure (r : RepoFetcherImpl) (fileType : string)
    (repo : bazeldnf.Repository) (repomd : api.Repomd.t) (mirror : url.URL)
    (w : World) : Prop :=
| missing_entry :
    Repomd_File repomd fileType = None ->
    typed_failure r fileType repo repomd mirror w
| missing_href file :
    Repomd_File repomd fileType = Some file ->
    api.Data.Location_Href file = "" ->
    typed_failure r fileType repo repomd mirror w
| digest_mismatch file resp expected :
    Repomd_File repomd fileType = Some file ->
    api.Data.Location_Href file ≠ "" ->
    Getter_ r (requests w) (fileURL_of mirror (api.Data.Location_Href file)) = Ok resp ->
    faults w !! (bazeldnf.Name repo, path.Base (api.Data.Location_Href file)) = None ->
    failure (Body resp) = None ->
    Data_SHA256 file = Ok expected ->
    expected ≠ toHex (delivered (Body resp)) ->
    typed_failure r fileType repo repomd mirror w.

(** ** How [fetchFile] fails *)

Inductive cause :=
| NoEntry | NoHref | GetFailed | WriteFailed | NoSHA256 | DigestMismatch.

(** The world once the typed file has been announced and requested. *)
Definition requested (fileType fileURL : string) (w : World) : World :=
  add_request fileURL
    (add_log InfoLevel ("Loading " +:+ fileType +:+ " file from " +:+ fileURL) w).

(** The typed file of entry [file] is fetched from the pinned mirror and
    stored whole. *)
Definition typed_fetched (r : RepoFetcherImpl) (repo : bazeldnf.Repository)
    (mirror : url.URL) (file : api.Data.t) (w : World) (resp : Response) : Prop :=
  Getter_ r (requests w) (fileURL_of mirror (api.Data.Location_Href file)) = Ok resp
  /\ faults w !! (bazeldnf.Name repo, path.Base (api.Data.Location_Href file)) = None
  /\ failure (Body resp) = None.

Inductive fetchFile_fails (r : RepoFetcherImpl) (fileType : string)
    (repo : bazeldnf.Repository) (repomd : api.Repomd.t) (mirror : url.URL)
    (w : World) : cause -> string -> World -> Prop :=
| fails_no_entry :
    Repomd_File repomd fileType = None ->
    fetchFile_fails r fileType repo repomd mirror w
      NoEntry "No 'file' file referenced in repomd" w
| fails_no_href file :
    Repomd_File repomd fileType = Some file ->
    api.Data.Location_Href file = "" ->
    fetchFile_fails r fileType repo repomd mirror w
      NoHref "The 'file' file has no href associated" w
| fails_get file err :
    Repomd_File repomd fileType = Some file ->
    api.Data.Location_Href file ≠ "" ->
    Getter_ r (requests w) (fileURL_of mirror (api.Data.Location_Href file)) = Err err ->
    fetchFile_fails r fileType repo repomd mirror w GetFailed
      ("Failed to load promary repository file from " +:+ fileURL_of mirror (api.Data.Location_Href file)
       +:+ ": " +:+ err)
      (requested fileType (fileURL_of mirror (api.Data.Location_Href file)) w)
| fails_create file resp err :
    Repomd_File repomd fileType = Some file ->
    api.Data.Location_Href file ≠ "" ->
    Getter_ r (requests w) (fileURL_of mirror (api.Data.Location_Href file)) = Ok resp ->
    faults w !! (bazeldnf.Name repo, path.Base (api.Data.Location_Href file)) = Some err ->
    fetchFile_fails r fileType repo repomd mirror w WriteFailed
      ("Failed to write file.xml from " +:+ fileURL_of mirror (api.Data.Location_Href file)
       +:+ " to file: " +:+ err)
      (requested fileType (fileURL_of mirror (api.Data.Location_Href file)) w)
| fails_stream file resp err :
    Repomd_File repomd fileType = Some file ->
    api.Data.Location_Href file ≠ "" ->
    Getter_ r (requests w) (fileURL_of mirror (api.Data.Location_Href file)) = Ok resp ->
    faults w !! (bazeldnf.Name repo, path.Base (api.Data.Location_Href file)) = None ->
    failure (Body resp) = Some err ->
    fetchFile_fails r fileType repo repomd mirror w WriteFailed
      ("Failed to write file.xml from " +:+ fileURL_of mirror (api.Data.Location_Href file)
       +:+ " to file: " +:+ err)
      (put_file (bazeldnf.Name repo, path.Base (api.Data.Location_Href file))
         (delivered (Body resp)) (requested fileType (fileURL_of mirror (api.Data.Location_Href file)) w))
| fails_no_sha256 file resp err :
    Repomd_File repomd fileType = Some file ->
    api.Data.Location_Href file ≠ "" ->
    typed_fetched r repo mirror file w resp ->
    Data_SHA256 file = Err err ->
    fetchFile_fails r fileType repo repomd mirror w NoSHA256
      ("failed to get sha256sum of file: " +:+ err)
      (put_file (bazeldnf.Name repo, path.Base (api.Data.Location_Href file))
         (delivered (Body resp))
         (requested fileType (fileURL_of mirror (api.Data.Location_Href file)) w))
| fails_mismatch file resp expected :
    Repomd_File repomd fileType = Some file ->
    api.Data.Location_Href file ≠ "" ->
    typed_fetched r repo mirror file w resp ->
    Data_SHA256 file = Ok expected ->
    expected ≠ toHex (delivered (Body resp)) ->
    fetchFile_fails r fileType repo repomd mirror w DigestMismatch
      (mismatch expected (toHex (delivered (Body resp))))
      (put_file (bazeldnf.Name repo, path.Base (api.Data.Location_Href file))
         (delivered (Body resp))
         (requested fileType (fileURL_of mirror (api.Data.Location_Href file)) w)).

(** [fetchFile] succeeds: the entry is there, the file is fetched and
    stored whole, and its digest is the declared one. *)
Definition fetchFile_succeeds (r : RepoFetcherImpl) (fileType : string)
    (repo : bazeldnf.Repository) (repomd : api.Repomd.t) (mirror : url.URL)
    (w w' : World) : Prop :=
  exists file resp,
    Repomd_File repomd fileType = Some file
    /\ api.Data.Location_Href file ≠ ""
    /\ typed_fetched r repo mirror file w resp
    /\ Data_SHA256 file = Ok (toHex (delivered (Body resp)))
    /\ w' = put_file (bazeldnf.Name repo, path.Base (api.Data.Location_Href file))
              (delivered (Body resp))
              (requested fileType (fileURL_of mirror (api.Data.Location_Href file)) w).

End Outcomes.

(** A path element that [path.Clean] keeps as it is: a name without a
    slash, other than "." and "..". *)
Definition plain_elem (e : string) : Prop :=
  e ≠ "" /\ e ≠ "." /\ e ≠ ".." /\ path.components e = [e].

(** The rooted path /e1/.../en of the elements e1 ... en. *)
Fixpoint rooted (es : list string) : string :=
  match es with
  | [] => ""
  | e :: es' => "/" +:+ e +:+ rooted es'
  end.

(** e1/.../en/tail *)
Fixpoint joined (es : list string) (tail : string) : string :=
  match es with
  | [] => tail
  | e :: es' => e +:+ "/" +:+ joined es' tail
  end.

(** The same repository with another direct base URL. *)
Definition with_Baseurl (repo : bazeldnf.Repository) (baseurl : string)
  : bazeldnf.Repository :=
  {| bazeldnf.Name := bazeldnf.Name repo;
     bazeldnf.Metalink := bazeldnf.Metalink repo;
     bazeldnf.Baseurl := baseurl |}.

(** ** A sample configuration

    One repository, a metalink that lists an insecure mirror and two
    secure ones, and a network that answers by table.  The decoders know
    the sample documents; the URL parser handles scheme://host/path. *)

Module sample.

Fixpoint cut_scheme (s : string) : option (string * string) :=
  match s with
  | String ":" (String "/" (String "/" rest)) => Some ("", rest)
  | String c s' =>
      match cut_scheme s' with
      | Some (scheme, rest) => Some (String c scheme, rest)
      | None => None
      end
  | EmptyString => None
  end.

Fixpoint cut_host (s : string) : string * string :=
  match s with
  | EmptyString => ("", "")
  | String c s' =>
      if decide (c = path.slash) then ("", s)
      else let '(host, p) := cut_host s' in (String c host, p)
  end.

Definition no_url : url.URL :=
  {| url.Scheme := ""; url.Opaque := ""; url.User := ""; url.Host := "";
     url.Path := ""; url.RawPath := ""; url.RawQuery := ""; url.Fragment := "" |}.

Definition Parse (s : string) : result url.URL :=
  match cut_scheme s with
  | Some (scheme, rest) =>
      let '(host, p) := cut_host rest in
      Ok {| url.Scheme := scheme; url.Opaque := ""; url.User := "";
            url.Host := host; url.Path := p; url.RawPath := "";
            url.RawQuery := ""; url.Fragment := "" |}
  | None => Ok (url.set_Path no_url s)
  end.

Definition String_ (u : url.URL) : string :=
  if decide (url.Scheme u = "") then url.Path u
  else url.Scheme u +:+ "://" +:+ url.Host u +:+ url.Path u.

Definition decode {A} (table : list (string * A)) (doc : string) : result A :=
  match List.find (fun e => bool_decide (fst e = doc)) table with
  | Some e => Ok (snd e)
  | None => Err "XML syntax error on line 1"
  end.

Definition mkURL (protocol text : string) : api.URL.t :=
  {| api.URL.Text := text; api.URL.Protocol := protocol; api.URL.Type_ := "";
     api.URL.Location := ""; api.URL.Preference := "" |}.

Definition mkData (type sumtype sum href : string) : api.Data.t :=
  {| api.Data.Text := ""; api.Data.Type_ := type;
     api.Data.Checksum_Text := sum; api.Data.Checksum_Type := sumtype;
     api.Data.OpenChecksum_Text := ""; api.Data.OpenChecksum_Type := "";
     api.Data.Location_Text := ""; api.Data.Location_Href := href;
     api.Data.Timestamp := ""; api.Data.Size := ""; api.Data.OpenSize := "";
     api.Data.DatabaseVersion := ""; api.Data.HeaderChecksum_Text := "";
     api.Data.HeaderChecksum_Type := ""; api.Data.HeaderSize := "" |}.

Definition mkRepomd (data : list api.Data.t) : api.Repomd.t :=
  {| api.Repomd.XMLName := "repomd"; api.Repomd.Text := "";
     api.Repomd.Xmlns := ""; api.Repomd.Rpm := ""; api.Repomd.Revision := "";
     api.Repomd.Data := data |}.

Definition metalink_url : string := "https://mirrors.example/metalink".
Definition mirror_c : string := "http://c.example/fedora/repodata/repomd.xml".
Definition mirror_a : string := "https://a.example/fedora/repodata/repomd.xml".
Definition mirror_b : string := "https://b.example/fedora/repodata/repomd.xml".
Definition mirror_down : string := "https://down.example/fedora/repodata/repomd.xml".
Definition mirror_junk : string := "https://junk.example/fedora/repodata/repomd.xml".
Definition primary_url : string := "https://b.example/fedora/repodata/primary.xml.gz".
Definition filelists_url : string := "https://b.example/fedora/repodata/filelists.xml.gz".

Definition primary_doc : string :=
  "<metadata packages='1'><package type='rpm'><name>bash</name></package></meta"
    +:+ "data>".
Definition filelists_doc : string :=
  "<filelists packages='1'><package name='bash'/></filelists>".
Definition primary_sum : string :=
  "1c52d6ce78a955930cfebc48651554245fffe71c62c8be4c43b9bcb4983537a7".
Definition filelists_sum : string :=
  "5d5646be81793ef6bd4b90d457dc2444f52e4f4af87fc266fd83b683d4660821".

Definition repomd_doc : string :=
  "<repomd><data type='primary'><checksum type='sha256'>1c52d6ce78a955930cfebc4"
    +:+ "8651554245fffe71c62c8be4c43b9bcb4983537a7</checksum><location href='repodata"
    +:+ "/primary.xml.gz'/></data><data type='filelists'><checksum type='sha256'>5d56"
    +:+ "46be81793ef6bd4b90d457dc2444f52e4f4af87fc266fd83b683d4660821</checksum><loca"
    +:+ "tion href='repodata/filelists.xml.gz'/></data></repomd>".
Definition repomd_sum : string :=
  "cb9e9c8a7a099c316ec70516b12b8d020ba9c52b52b6009bab440a86fe777f11".
Definition tampered_doc : string :=
  "<repomd><data type='primary'><checksum type='sha256'>0000</checksum><locatio"
    +:+ "n href='repodata/primary.xml.gz'/></data></repomd>".
Definition junk_doc : string := "<html>502 Bad Gateway</html>".
Definition metalink_doc : string :=
  "<metalink><files><file name='repomd.xml'><resources><url protocol='http'>htt"
    +:+ "p://c.example/fedora/repodata/repomd.xml</url><url protocol='https'>https://"
    +:+ "a.example/fedora/repodata/repomd.xml</url><url protocol='https'>https://b.ex"
    +:+ "ample/fedora/repodata/repomd.xml</url></resources></file></files></metalink>".

Definition repomd : api.Repomd.t :=
  mkRepomd [ mkData "primary" "sha256" primary_sum "repodata/primary.xml.gz";
             mkData "filelists" "sha256" filelists_sum "repodata/filelists.xml.gz" ].

Definition tampered : api.Repomd.t :=
  mkRepomd [ mkData "primary" "sha256" "0000" "repodata/primary.xml.gz" ].

Definition repomod : api.File.t :=
  {| api.File.Name := "repomd.xml";
     api.File.Resources_URLs :=
       [ mkURL "http" mirror_c; mkURL "https" mirror_a; mkURL "https" mirror_b ] |}.

Definition metalink : api.Metalink.t :=
  {| api.Metalink.XMLName := "metalink"; api.Metalink.Files_File := [repomod] |}.

(** The externals, for a given reading of the checksum a metalink entry
    states. *)
Definition externals (sha : api.File.t -> result string) : Externals :=
  {| url_Parse := Parse;
     URL_String := String_;
     xml_Unmarshal_Metalink := decode [(metalink_doc, metalink)];
     xml_Unmarshal_Repomd := decode [(repomd_doc, repomd); (tampered_doc, tampered)];
     File_SHA256 := sha |}.

(** The metalink states the digest of the genuine index. *)
Definition ext : Externals := externals (fun _ => Ok repomd_sum).

(** The metalink states no sha256 digest. *)
Definition ext_nosum : Externals := externals (fun _ => Err "no sha256 found").

Definition body (doc : string) : result Response :=
  Ok {| Body := {| delivered := doc; failure := None |} |}.

Definition serve (table : list (string * result Response)) : Getter :=
  fun _ u =>
    match List.find (fun e => bool_decide (fst e = u)) table with
    | Some e => snd e
    | None => Err "dial tcp: no such host"
    end.

Definition network : Getter :=
  serve [ (metalink_url, body metalink_doc);
          (mirror_a, body tampered_doc);
          (mirror_b, body repomd_doc);
          (mirror_junk, body junk_doc);
          (primary_url, body primary_doc);
          (filelists_url, body filelists_doc) ].

Definition fedora : bazeldnf.Repository :=
  {| bazeldnf.Name := "fedora"; bazeldnf.Metalink := metalink_url;
     bazeldnf.Baseurl := "https://base.example/fedora/" |}.

Definition updates : bazeldnf.Repository :=
  {| bazeldnf.Name := "updates"; bazeldnf.Metalink := "";
     bazeldnf.Baseurl := "https://b.example/fedora/" |}.

Definition fetcher (repos : list bazeldnf.Repository) : RepoFetcherImpl :=
  {| Getter_ := network; Repos := repos;
     CacheHelper_ := {| CacheDir := "/var/cache/bazeldnf" |} |}.

(** Nothing requested, nothing cached, nothing logged, no faulty file. *)
Definition start : World :=
  {| requests := []; files := ∅; faults := ∅; logs := [] |}.

(** The mirror pinned by a successful fetch of the index from [mirror_b]. *)
Definition pinned_b : url.URL :=
  {| url.Scheme := "https"; url.Opaque := ""; url.User := "";
     url.Host := "b.example"; url.Path := "/fedora/"; url.RawPath := "";
     url.RawQuery := ""; url.Fragment := "" |}.

End sample.

(** ** What a run leaves of the world it started in *)

(** [extends_for name w w']: [w'] is [w] after more requests and more log
    lines; no cached file is gone, the cached files of repositories other
    than [name] are as they were, and so are the faults. *)
Definition extends_for (name : string) (w w' : World) : Prop :=
  (exists more, requests w' = requests w ++ more)
  /\ (exists more, logs w' = logs w ++ more)
  /\ faults w' = faults w
  /\ (forall k, fst k ≠ name -> files w' !! k = files w !! k)
  /\ (forall k, is_Some (files w !! k) -> is_Some (files w' !! k)).

(** A step of the fetcher keeps [extends_for name], however it ends. *)
Definition keeps {A} (name : string) (m : M A) : Prop :=
  forall w, extends_for name w (snd (m w)).

(** A lowercase hexadecimal digit. *)
Definition lower_hex (c : ascii) : bool :=
  existsb (Ascii.eqb c) (list_ascii_of_string "0123456789abcdef").

Section Endings.

Context {ext : Externals}.

(** The process ends only where [log.Fatalf] is called: the getter has
    answered a URL that [url.Parse] rejects. *)
Definition ends_well {A} (r : RepoFetcherImpl) (out : outcome A) : Prop :=
  match out with
  | Return _ => True
  | Exit =>
      exists history u resp err,
        Getter_ r history u = Ok resp /\ url_Parse u = Err err
  | Panic => False
  end.

End Endings.

(** A string that can be the [toHex] of a hash: 64 lowercase hexadecimal
    digits. *)
Definition hex_digest (s : string) : bool :=
  (String.length s =? 64)%nat && forallb lower_hex (list_ascii_of_string s).

(** [ends_with s suffix]: [strings.HasSuffix]. *)
Fixpoint ends_with (s suffix : string) : bool :=
  if decide (s = suffix) then true
  else match s with
       | EmptyString => false
       | String _ s' => ends_with s' suffix
       end.

(** ** The library models on known values *)

Example path_dir_index :
  path.Dir "/pub/fedora/36/x86_64/repodata/repomd.xml" = "/pub/fedora/36/x86_64/repodata".
Proof. reflexivity. Qed.

Example path_dir_unclean : path.Dir "/a/../b//repodata/repomd.xml" = "/b/repodata".
Proof. reflexivity. Qed.

Example path_join_base :
  path.Join "/pub/fedora/" "repodata/abc-primary.xml.gz" = "/pub/fedora/repodata/abc-primary.xml.gz".
Proof. reflexivity. Qed.

Example path_join_dotdot : path.Join "/pub/fedora/" "../../../x" = "/x".
Proof. reflexivity. Qed.

Example path_clean_rel : path.Clean "a/../../b/./c/" = "../b/c".
Proof. reflexivity. Qed.

Example path_base_href : path.Base "repodata/abc-primary.xml.gz" = "abc-primary.xml.gz".
Proof. reflexivity. Qed.

Example trim_suffix_once : strings.TrimSuffix "https://host/base//" "/" = "https://host/base/".
Proof. reflexivity. Qed.

Example toHex_empty :
  toHex "" = "e3b0c44298fc1c149afbf4c8996fb92427ae41e4649b934ca495991b7852b855".
Proof. vm_compute. reflexivity. Qed.

Example toHex_abc :
  toHex "abc" = "ba7816bf8f01cfea414140de5dae2223b00361a396177a9cb410ff61f20015ad".
Proof. vm_compute. reflexivity. Qed.

Example toHex_two_blocks :
  toHex "The quick brown fox jumps over the lazy dog, and then the dog jumps back."
  = "c33459a5e2339b6c6103163eddc10e9a420e17a9b7f2cbdcd340b8a291daf61e".
Proof. vm_compute. reflexivity. Qed.

Example sample_digests :
  toHex sample.primary_doc = sample.primary_sum
  /\ toHex sample.filelists_doc = sample.filelists_sum
  /\ toHex sample.repomd_doc = sample.repomd_sum.
Proof. vm_compute. auto. Qed.

Example sample_parse :
  sample.Parse sample.mirror_b
  = Ok (url.set_Path sample.pinned_b "/fedora/repodata/repomd.xml").
Proof. reflexivity. Qed.

Example sample_fetch_succeeds :
  fst (Fetch (ext := sample.ext) (sample.fetcher [sample.updates]) sample.start)
  = Return None.
Proof. vm_compute. reflexivity. Qed.

(** ** Facts about strings *)

Lemma append_cons (c : ascii) (a b : string) : String c a +:+ b = String c (a +:+ b).
Proof. reflexivity. Qed.

Lemma append_empty (b : string) : "" +:+ b = b.
Proof. reflexivity. Qed.

Lemma prefix_app (p s : string) : String.prefix p (p +:+ s) = true.
Proof.
  induction p as [|c p IH].
  - rewrite append_empty. now destruct s.
  - rewrite append_cons. simpl.
    destruct (ascii_dec c c) as [_|n]; [exact IH | now destruct n].
Qed.

Lemma Contains_prefix (p s : string) : strings.Contains (p +:+ s) p = true.
Proof.
  destruct p as [|c p].
  - rewrite append_empty. now destruct s.
  - rewrite append_cons. simpl.
    destruct (ascii_dec c c) as [_|n]; [| now destruct n].
    now rewrite prefix_app.
Qed.

Lemma Contains_app_r (a s sub : string) :
  strings.Contains s sub = true -> strings.Contains (a +:+ s) sub = true.
Proof.
  intros Hs. induction a as [|c a IH]; [exact Hs|].
  rewrite append_cons. simpl. rewrite IH. apply orb_true_r.
Qed.

Lemma Contains_middle (a b c : string) : strings.Contains (a +:+ b +:+ c) b = true.
Proof. apply Contains_app_r, Contains_prefix. Qed.

Lemma append_assoc (a b c : string) : (a +:+ b) +:+ c = a +:+ b +:+ c.
Proof.
  induction a as [|x a IH]; [reflexivity|].
  now rewrite !append_cons, IH.
Qed.

Lemma length_append (a b : string) :
  String.length (a +:+ b) = String.length a + String.length b.
Proof.
  induction a as [|x a IH]; [reflexivity|].
  rewrite append_cons. simpl. now rewrite IH.
Qed.

Lemma TrimSuffix_app (s suffix : string) : strings.TrimSuffix (s +:+ suffix) suffix = s.
Proof.
  induction s as [|c s IH].
  - rewrite append_empty.
    destruct suffix as [|a t]; [reflexivity|]. simpl.
    destruct (decide (String a t = String a t)) as [_|n]; [reflexivity | now destruct n].
  - rewrite append_cons. simpl.
    destruct (decide _) as [e|_]; [| now rewrite IH].
    apply (f_equal String.length) in e. simpl in e.
    rewrite length_append in e. lia.
Qed.

Section FetcherFacts.

Context {ext : Externals}.

(** ** The mirror list of a metalink *)

Lemma https_urls_acc (URLs : list api.URL.t) (acc : list string) :
  fold_left
    (fun urls u =>
       if decide (api.URL.Protocol u ≠ "https") then urls
       else urls ++ [api.URL.Text u])
    URLs acc
  = acc ++ map api.URL.Text
             (filter (fun u => api.URL.Protocol u = "https") URLs).
Proof.
  revert acc. induction URLs as [|u URLs IH]; intros acc; simpl.
  - now rewrite app_nil_r.
  - rewrite IH, filter_cons.
    destruct (decide (api.URL.Protocol u ≠ "https")) as [n|e];
      destruct (decide (api.URL.Protocol u = "https")) as [e'|n']; try tauto.
    simpl. now rewrite <- List.app_assoc.
Qed.

Lemma https_urls_filter (URLs : list api.URL.t) :
  https_urls URLs
  = map api.URL.Text (filter (fun u => api.URL.Protocol u = "https") URLs).
Proof. unfold https_urls. now rewrite https_urls_acc. Qed.

Lemma resolveMetaLink_requests r repo w :
  requests (snd (resolveMetaLink r repo w)) = requests w ++ [bazeldnf.Metalink repo].
Proof.
  unfold resolveMetaLink, bind, Get, WriteToRepoDir, LoadMetaLink, ret. simpl.
  destruct (Getter_ r _ _); simpl; [|reflexivity].
  destruct (faults w !! _); simpl; [reflexivity|].
  destruct (failure _); simpl; [reflexivity|].
  rewrite lookup_insert_eq.
  destruct (xml_Unmarshal_Metalink _); simpl; [|reflexivity].
  destruct (Metalink_Repomod _); simpl; [|reflexivity].
  now destruct (decide _).
Qed.

(** C4: mirror resolution keeps exactly the URLs tagged https, in document
    order; the only request it makes is for the metalink document itself,
    none for a candidate; and it fails with the no-https error exactly
    when no URL is left. *)
Theorem resolveMetaLink_secure_in_order
    (r : RepoFetcherImpl) (repo : bazeldnf.Repository) (w : World)
    (resp : Response) (m : api.Metalink.t) (file : api.File.t) :
  Getter_ r (requests w) (bazeldnf.Metalink repo) = Ok resp ->
  faults w !! (bazeldnf.Name repo, "metalink") = None ->
  failure (Body resp) = None ->
  xml_Unmarshal_Metalink (delivered (Body resp)) = Ok m ->
  Metalink_Repomod m = Some file ->
  let secure :=
    map api.URL.Text
      (filter (fun u => api.URL.Protocol u = "https") (api.File.Resources_URLs file)) in
  exists w',
    resolveMetaLink r repo w
    = (Return (Some m, secure,
               if decide (secure = [])
               then Some "Metalink contains no https url to a rpomd.xml file"
               else None), w')
    /\ requests w' = requests w ++ [bazeldnf.Metalink repo].
Proof.
  intros Hget Hfault Hfail Hxml Hrepomod secure.
  pose proof (resolveMetaLink_requests r repo w) as Hreq.
  destruct (resolveMetaLink r repo w) as [out w'] eqn:Hrun.
  exists w'. split; [| exact Hreq].
  revert Hrun.
  unfold resolveMetaLink, bind, Get, WriteToRepoDir, LoadMetaLink, ret. simpl.
  rewrite Hget. simpl. rewrite Hfault. simpl. rewrite Hfail. simpl.
  rewrite lookup_insert_eq, Hxml. simpl. rewrite Hrepomod.
  rewrite https_urls_filter. fold secure.
  destruct (decide (length secure = 0)) as [e|n];
    destruct (decide (secure = [])) as [e'|n'].
  - intros [= <- <-]. now rewrite e'.
  - destruct secure; [now destruct n' | discriminate].
  - rewrite e' in n. now destruct n.
  - now intros [= <- <-].
Qed.

End FetcherFacts.

Lemma resolveMetaLink_secure_in_order_witness :
  exists w',
    resolveMetaLink (ext := sample.ext) (sample.fetcher [sample.fedora]) sample.fedora
      sample.start
    = (Return (Some sample.metalink, [sample.mirror_a; sample.mirror_b], None), w')
    /\ requests w' = [sample.metalink_url].
Proof.
  exact (resolveMetaLink_secure_in_order (ext := sample.ext)
           (sample.fetcher [sample.fedora]) sample.fedora sample.start
           {| Body := {| delivered := sample.metalink_doc; failure := None |} |}
           sample.metalink sample.repomod
           eq_refl eq_refl eq_refl eq_refl eq_refl).
Defined.

Section RepomdFacts.

Context {ext : Externals}.

(** ** One candidate of [resolveRepomd] *)

Ltac run_iter :=
  unfold resolveRepomd_iter, bind, Get, WriteToRepoDir, UnmarshalFromRepoDir,
    log.Infof, log.Errorf, log.Fatalf, ret; simpl.

Lemma iter_run r repo sha256sum u w :
  iter_ends r repo sha256sum u w
    (fst (resolveRepomd_iter r repo sha256sum u w))
    (snd (resolveRepomd_iter r repo sha256sum u w)).
Proof.
  run_iter.
  destruct (Getter_ r (requests w) u) as [resp|err] eqn:Hget; simpl.
  2:{ apply ends_failed. now apply network_failure. }
  destruct (faults w !! (bazeldnf.Name repo, "repomd.xml")) as [err|] eqn:Hfault; simpl.
  { apply ends_failed. now apply create_failure with resp. }
  destruct (failure (Body resp)) as [err|] eqn:Hfail; simpl.
  { apply ends_failed. now apply stream_failure. }
  assert (index_fetched r repo u w (delivered (Body resp))) as Hfetched
    by (exists resp; auto).
  destruct (decide _) as [[Hsum Hne]|Hacc]; simpl.
  { now apply ends_mismatch. }
  rewrite lookup_insert_eq.
  destruct (xml_Unmarshal_Repomd _) as [file|err] eqn:Hxml; simpl.
  2:{ apply ends_failed. now apply parse_failure. }
  destruct (url_Parse u) as [mirror|err] eqn:Hparse; simpl.
  - now apply ends_found.
  - now apply ends_fatal with file.
Qed.

Lemma iter_inv r repo sha256sum u w out w' :
  resolveRepomd_iter r repo sha256sum u w = (out, w') ->
  iter_ends r repo sha256sum u w out w'.
Proof.
  intros Hrun. pose proof (iter_run r repo sha256sum u w) as H.
  now rewrite Hrun in H.
Qed.

Lemma iter_failed r repo sha256sum u w w' :
  mirror_fails r repo sha256sum u w w' ->
  resolveRepomd_iter r repo sha256sum u w = (Return Continue, w').
Proof.
  intros [err Hget|resp err Hget Hfault|resp err Hget Hfault Hfail
         |resp err Hget Hfault Hfail Hacc Hxml];
    unfold index_key in *; run_iter; rewrite Hget; simpl.
  - reflexivity.
  - now rewrite Hfault.
  - rewrite Hfault. simpl. now rewrite Hfail.
  - rewrite Hfault. simpl. rewrite Hfail. simpl.
    destruct (decide _) as [Hbad|_]; [now destruct Hacc|].
    simpl. rewrite lookup_insert_eq, Hxml. reflexivity.
Qed.

Lemma iter_mismatch r repo sha256sum u w sha :
  index_fetched r repo u w sha ->
  sha256sum ≠ "" -> toHex sha ≠ sha256sum ->
  resolveRepomd_iter r repo sha256sum u w
  = (Return (ReturnErr (mismatch sha256sum (toHex sha))),
     put_file (index_key repo) sha (announced u w)).
Proof.
  intros (resp & Hget & Hfault & Hfail & <-) Hsum Hne.
  unfold index_key in *. run_iter. rewrite Hget. simpl. rewrite Hfault. simpl. rewrite Hfail. simpl.
  destruct (decide _) as [_|Hacc]; [reflexivity|].
  destruct Hacc. now split.
Qed.

Lemma mirror_fails_logged r repo sha256sum u w w' :
  mirror_fails r repo sha256sum u w w' ->
  requests w' = requests w ++ [u]
  /\ exists msg, logs w' = logs w ++ [(InfoLevel, "Resolving repomd.xml from " +:+ u);
                                      (ErrorLevel, msg)]
                 /\ strings.Contains msg u = true.
Proof.
  intros [err Hget|resp err Hget Hfault|resp err Hget Hfault Hfail
         |resp err Hget Hfault Hfail Hacc Hxml];
    (split; [reflexivity|]); eexists; simpl;
    (split; [now rewrite <- List.app_assoc|]); apply Contains_middle.
Qed.

Lemma mirrors_fail_requests r repo sha256sum urls w w' :
  mirrors_fail r repo sha256sum urls w w' -> requests w' = requests w ++ urls.
Proof.
  induction 1 as [w|u rest w w1 w2 Hu _ IH]; [now rewrite app_nil_r|].
  apply mirror_fails_logged in Hu as [Hreq _].
  now rewrite IH, Hreq, <- List.app_assoc.
Qed.

(** ** The loop over the candidates *)

Lemma loop_failed r repo sha256sum pre rest w w1 :
  mirrors_fail r repo sha256sum pre w w1 ->
  resolveRepomd_loop r repo (pre ++ rest) sha256sum w
  = resolveRepomd_loop r repo rest sha256sum w1.
Proof.
  induction 1 as [w|u pre w w1 w2 Hu _ IH]; [reflexivity|].
  simpl. unfold bind at 1. now rewrite (iter_failed _ _ _ _ _ _ Hu).
Qed.

Lemma loop_exhausted_inv r repo sha256sum urls w w' :
  resolveRepomd_loop r repo urls sha256sum w = (Return (Ok None), w') ->
  mirrors_fail r repo sha256sum urls w w'.
Proof.
  revert w. induction urls as [|u rest IH]; intros w; simpl.
  - intros [= <-]. constructor.
  - unfold bind at 1.
    destruct (resolveRepomd_iter r repo sha256sum u w) as [out w1] eqn:Hit.
    apply iter_inv in Hit.
    destruct Hit as [w1 Hfail| | |]; try discriminate.
    intros Hrest. econstructor; eauto.
Qed.

Lemma resolveRepomd_failed r repo sha256sum pre rest w w1 :
  mirrors_fail r repo sha256sum pre w w1 ->
  resolveRepomd r repo (pre ++ rest) sha256sum w
  = resolveRepomd r repo rest sha256sum w1.
Proof.
  intros Hpre. unfold resolveRepomd, bind.
  now rewrite (loop_failed _ _ _ _ rest _ _ Hpre).
Qed.

Lemma mismatch_not_exhausted expected actual : mismatch expected actual ≠ exhausted.
Proof. discriminate. Qed.

End RepomdFacts.

Section FetchFileFacts.

Context {ext : Externals}.

Ltac run_fetchFile :=
  unfold fetchFile, bind, Get, WriteToRepoDir, log.Infof, ret; simpl.

Ltac enter_fetchFile Hfile Hhref :=
  run_fetchFile; rewrite Hfile;
  match goal with
  | |- context [decide (?h = "")] =>
      destruct (decide (h = "")) as [e0|_]; [now destruct Hhref|]
  end; simpl.

Lemma fetchFile_fails_run r fileType repo repomd mirror w c e w' :
  fetchFile_fails r fileType repo repomd mirror w c e w' ->
  fetchFile r fileType repo repomd mirror w = (Return (Some e), w').
Proof.
  intros Hf.
  destruct Hf as [Hfile|file Hfile Hhref|file err Hfile Hhref Hget
                 |file resp err Hfile Hhref Hget Hfault
                 |file resp err Hfile Hhref Hget Hfault Hfail
                 |file resp err Hfile Hhref (Hget & Hfault & Hfail) Hsum
                 |file resp expected Hfile Hhref (Hget & Hfault & Hfail) Hsum Hne].
  - run_fetchFile. now rewrite Hfile.
  - run_fetchFile. rewrite Hfile.
    destruct (decide _) as [_|n]; [reflexivity | now destruct n].
  - enter_fetchFile Hfile Hhref. now rewrite Hget.
  - enter_fetchFile Hfile Hhref. rewrite Hget. simpl.
    now rewrite Hfault.
  - enter_fetchFile Hfile Hhref. rewrite Hget. simpl.
    rewrite Hfault. simpl. now rewrite Hfail.
  - enter_fetchFile Hfile Hhref. rewrite Hget. simpl.
    rewrite Hfault. simpl. rewrite Hfail. simpl. now rewrite Hsum.
  - enter_fetchFile Hfile Hhref. rewrite Hget. simpl.
    rewrite Hfault. simpl. rewrite Hfail. simpl. rewrite Hsum.
    destruct (decide _) as [_|n]; [reflexivity | now destruct n].
Qed.

Lemma fetchFile_run r fileType repo repomd mirror w :
  match fetchFile r fileType repo repomd mirror w with
  | (Return (Some e), w') =>
      exists c, fetchFile_fails r fileType repo repomd mirror w c e w'
  | (Return None, w') => fetchFile_succeeds r fileType repo repomd mirror w w'
  | _ => False
  end.
Proof.
  run_fetchFile.
  destruct (Repomd_File repomd fileType) as [file|] eqn:Hfile.
  2:{ exists NoEntry. now constructor. }
  destruct (decide (api.Data.Location_Href file = "")) as [Hhref|Hhref].
  { exists NoHref. eapply fails_no_href; eauto. }
  simpl.
  destruct (Getter_ r (requests w) _) as [resp|err] eqn:Hget; simpl.
  2:{ exists GetFailed. eapply fails_get; eauto. }
  destruct (faults w !! _) as [err|] eqn:Hfault; simpl.
  { exists WriteFailed. eapply fails_create; eauto. }
  destruct (failure (Body resp)) as [err|] eqn:Hfail; simpl.
  { exists WriteFailed. eapply fails_stream; eauto. }
  assert (typed_fetched r repo mirror file w resp) as Hfetched by (now split).
  destruct (Data_SHA256 file) as [expected|err] eqn:Hsum.
  2:{ exists NoSHA256. eapply fails_no_sha256; eauto. }
  destruct (decide (expected ≠ toHex _)) as [Hne|Heq].
  - exists DigestMismatch. eapply fails_mismatch; eauto.
  - exists file, resp. repeat split; auto.
    rewrite Hsum. f_equal. destruct (decide (expected = toHex (delivered (Body resp))));
      [assumption | contradiction].
Qed.


Lemma fetchFile_fails_requests r fileType repo repomd mirror w c e w' :
  fetchFile_fails r fileType repo repomd mirror w c e w' ->
  match c with
  | NoEntry | NoHref => requests w' = requests w
  | _ => exists file,
      Repomd_File repomd fileType = Some file
      /\ requests w'
         = requests w ++ [fileURL_of mirror (api.Data.Location_Href file)]
  end.
Proof. destruct 1; try reflexivity; eexists; eauto. Qed.

Lemma fetchFile_fails_kind r fileType repo repomd mirror w c e w' :
  fetchFile_fails r fileType repo repomd mirror w c e w' ->
  is_ChecksumMismatch e = true <-> c = DigestMismatch.
Proof.
  destruct 1; split; try discriminate; try reflexivity.
  intros _. exact (prefix_app _ _).
Qed.

End FetchFileFacts.

Lemma prefix_refl (p : string) : String.prefix p p = true.
Proof.
  induction p as [|c p IH]; [reflexivity|]. simpl.
  destruct (ascii_dec c c) as [_|n]; [exact IH | now destruct n].
Qed.

Lemma Contains_self (p : string) : strings.Contains p p = true.
Proof.
  destruct p as [|c p]; [reflexivity|]. simpl.
  destruct (ascii_dec c c) as [_|n]; [| now destruct n].
  now rewrite prefix_refl.
Qed.

Lemma mismatch_carries_digests (expected actual : string) :
  strings.Contains (mismatch expected actual) expected = true
  /\ strings.Contains (mismatch expected actual) actual = true.
Proof.
  unfold mismatch. split; [apply Contains_middle|].
  do 3 apply Contains_app_r. apply Contains_self.
Qed.

Section FetchFacts.

Context {ext : Externals}.

Lemma Fetch_loop_stops r repo rest w e w' :
  Fetch_repo r repo w = (Return (Some e), w') ->
  Fetch_loop r (repo :: rest) w = (Return (Some e), w').
Proof. intros Hrepo. simpl. unfold bind. now rewrite Hrepo. Qed.

Lemma Fetch_repo_index_error r repo w0 urls sum w1 e w2 :
  Fetch_sources r repo w0 = (Return (Ok (urls, sum)), w1) ->
  resolveRepomd r repo urls sum w1 = (Return (Err e), w2) ->
  Fetch_repo r repo w0
  = (Return (Some ("failed to fetch repomd.xml for " +:+ bazeldnf.Name repo
                   +:+ ": " +:+ e)), w2).
Proof.
  intros Hsrc Hidx. unfold Fetch_repo, bind. rewrite Hsrc.
  unfold bind. now rewrite Hidx.
Qed.

Lemma Fetch_repo_primary_error r repo w0 urls sum w1 repomd mirror w2 e w3 :
  Fetch_sources r repo w0 = (Return (Ok (urls, sum)), w1) ->
  resolveRepomd r repo urls sum w1 = (Return (Ok (repomd, mirror)), w2) ->
  fetchFile r api.PrimaryFileType repo repomd mirror w2 = (Return (Some e), w3) ->
  Fetch_repo r repo w0
  = (Return (Some ("failed to fetch primary.xml for " +:+ bazeldnf.Name repo
                   +:+ ": " +:+ e)), w3).
Proof.
  intros Hsrc Hidx Hprim. unfold Fetch_repo, bind. rewrite Hsrc.
  unfold bind. rewrite Hidx. unfold bind. now rewrite Hprim.
Qed.

Lemma Fetch_repo_filelists_error r repo w0 urls sum w1 repomd mirror w2 w3 e w4 :
  Fetch_sources r repo w0 = (Return (Ok (urls, sum)), w1) ->
  resolveRepomd r repo urls sum w1 = (Return (Ok (repomd, mirror)), w2) ->
  fetchFile r api.PrimaryFileType repo repomd mirror w2 = (Return None, w3) ->
  fetchFile r api.FilelistsFileType repo repomd mirror w3 = (Return (Some e), w4) ->
  Fetch_repo r repo w0
  = (Return (Some ("failed to fetch filelists.xml for " +:+ bazeldnf.Name repo
                   +:+ ": " +:+ e)), w4).
Proof.
  intros Hsrc Hidx Hprim Hfl. unfold Fetch_repo, bind. rewrite Hsrc.
  unfold bind. rewrite Hidx. unfold bind. rewrite Hprim.
  unfold bind. now rewrite Hfl.
Qed.

End FetchFacts.

Section IndexClaims.

Context {ext : Externals}.

(** C1, as amended: when an expected checksum is recorded and the digest of
    a fetched repomd.xml differs from it, [resolveRepomd] returns at once
    the mismatch error, which carries the expected and the actual digest;
    the candidates after it are never requested; the last line of the log
    is the one that announced the candidate; and [Fetch] returns that
    error, under the name of the repository, without going on. *)
Theorem resolveRepomd_mismatch_aborts
    (r : RepoFetcherImpl) (repo : bazeldnf.Repository) (sha256sum : string)
    (pre : list string) (u : string) (rest : list string)
    (w w1 : World) (sha : string) :
  mirrors_fail r repo sha256sum pre w w1 ->
  index_fetched r repo u w1 sha ->
  sha256sum ≠ "" ->
  toHex sha ≠ sha256sum ->
  let e := mismatch sha256sum (toHex sha) in
  exists w',
    resolveRepomd r repo (pre ++ u :: rest) sha256sum w = (Return (Err e), w')
    /\ requests w' = requests w ++ pre ++ [u]
    /\ strings.Contains e sha256sum = true
    /\ strings.Contains e (toHex sha) = true
    /\ last (logs w') = Some (InfoLevel, "Resolving repomd.xml from " +:+ u)
    /\ forall w0 others,
        Fetch_sources r repo w0 = (Return (Ok (pre ++ u :: rest, sha256sum)), w) ->
        Fetch_loop r (repo :: others) w0
        = (Return (Some ("failed to fetch repomd.xml for " +:+ bazeldnf.Name repo
                         +:+ ": " +:+ e)), w').
Proof.
  intros Hpre Hfetched Hsum Hne e.
  exists (put_file (index_key repo) sha (announced u w1)).
  assert (resolveRepomd r repo (pre ++ u :: rest) sha256sum w
          = (Return (Err e), put_file (index_key repo) sha (announced u w1))) as Hrun.
  { rewrite (resolveRepomd_failed _ _ _ _ _ _ _ Hpre).
    unfold resolveRepomd, bind. simpl. unfold bind at 1.
    now rewrite (iter_mismatch _ _ _ _ _ _ Hfetched Hsum Hne). }
  split; [exact Hrun|]. split.
  { simpl. rewrite (mirrors_fail_requests _ _ _ _ _ _ Hpre).
    now rewrite <- List.app_assoc. }
  destruct (mismatch_carries_digests sha256sum (toHex sha)) as [He Ha].
  repeat split; auto.
  { simpl. apply last_snoc. }
  intros w0 others Hsrc. apply Fetch_loop_stops.
  now apply Fetch_repo_index_error with (pre ++ u :: rest) sha256sum w.
Qed.


End IndexClaims.

(** C1, as stated, fails on the sample: with the digest of the genuine index
    recorded, the first secure mirror serves a tampered index.  The error [resolveRepomd]
    returns, and the one [Fetch] returns, do not contain the URL of that
    mirror. *)
Lemma mismatch_error_omits_mirror :
  let r := sample.fetcher [sample.fedora] in
  index_fetched r sample.fedora sample.mirror_a sample.start sample.tampered_doc
  /\ sample.repomd_sum ≠ ""
  /\ toHex sample.tampered_doc ≠ sample.repomd_sum
  /\ match fst (resolveRepomd (ext := sample.ext) r sample.fedora
                  [sample.mirror_a; sample.mirror_b] sample.repomd_sum sample.start) with
     | Return (Err e) =>
         is_ChecksumMismatch e = true /\ strings.Contains e sample.mirror_a = false
     | _ => False
     end
  /\ match fst (Fetch (ext := sample.ext) r sample.start) with
     | Return (Some e) => strings.Contains e sample.mirror_a = false
     | _ => False
     end.
Proof.
  split; [|split; [|split; [|split]]].
  - eexists. repeat split; reflexivity.
  - discriminate.
  - vm_compute. discriminate.
  - vm_compute. split; reflexivity.
  - vm_compute. reflexivity.
Qed.

Lemma resolveRepomd_mismatch_aborts_witness :
  exists w',
    resolveRepomd (ext := sample.ext) (sample.fetcher [sample.fedora]) sample.fedora
      ([sample.mirror_down] ++ sample.mirror_a :: [sample.mirror_b])
      sample.repomd_sum sample.start
    = (Return (Err (mismatch sample.repomd_sum (toHex sample.tampered_doc))), w')
    /\ requests w' = requests sample.start ++ [sample.mirror_down] ++ [sample.mirror_a].
Proof.
  edestruct (resolveRepomd_mismatch_aborts (ext := sample.ext)
               (sample.fetcher [sample.fedora]) sample.fedora sample.repomd_sum
               [sample.mirror_down] sample.mirror_a [sample.mirror_b]
               sample.start) as (w' & Hrun & Hreq & _).
  - eapply fail_cons; [| apply fail_nil].
    apply network_failure with (err := "dial tcp: no such host"). reflexivity.
  - exists {| Body := {| delivered := sample.tampered_doc; failure := None |} |}.
    repeat split; reflexivity.
  - discriminate.
  - vm_compute. discriminate.
  - exists w'. split; [exact Hrun | exact Hreq].
Defined.


Section LoopInversion.

Context {ext : Externals}.

(** The loop ends early only at a candidate that was fetched whole, all
    candidates before it having failed. *)
Lemma loop_error_inv r repo sha256sum urls w e w' :
  resolveRepomd_loop r repo urls sha256sum w = (Return (Err e), w') ->
  exists pre u rest w1 sha,
    urls = pre ++ u :: rest
    /\ mirrors_fail r repo sha256sum pre w w1
    /\ index_fetched r repo u w1 sha
    /\ sha256sum ≠ "" /\ toHex sha ≠ sha256sum
    /\ e = mismatch sha256sum (toHex sha)
    /\ w' = put_file (index_key repo) sha (announced u w1).
Proof.
  revert w. induction urls as [|u rest IH]; intros w; simpl; [discriminate|].
  unfold bind at 1.
  destruct (resolveRepomd_iter r repo sha256sum u w) as [out w1] eqn:Hit.
  apply iter_inv in Hit.
  destruct Hit as [w1 Hfail|sha Hfetched Hsum Hne| |]; try discriminate.
  - intros Hrest. apply IH in Hrest
      as (pre & u' & rest' & w2 & sha & -> & Hpre & Hrest).
    exists (u :: pre), u', rest', w2, sha. split; [reflexivity|].
    split; [econstructor; eauto | exact Hrest].
  - intros [= <- <-]. exists [], u, rest, w, sha.
    repeat split; auto. constructor.
Qed.

Lemma loop_found_inv r repo sha256sum urls w repomd mirror w' :
  resolveRepomd_loop r repo urls sha256sum w = (Return (Ok (Some (repomd, mirror))), w') ->
  exists pre u rest w1 sha,
    urls = pre ++ u :: rest
    /\ mirrors_fail r repo sha256sum pre w w1
    /\ index_fetched r repo u w1 sha
    /\ sum_accepts sha256sum sha
    /\ xml_Unmarshal_Repomd sha = Ok repomd
    /\ url_Parse u = Ok mirror
    /\ w' = put_file (index_key repo) sha (announced u w1).
Proof.
  revert w. induction urls as [|u rest IH]; intros w; simpl; [discriminate|].
  unfold bind at 1.
  destruct (resolveRepomd_iter r repo sha256sum u w) as [out w1] eqn:Hit.
  apply iter_inv in Hit.
  destruct Hit as [w1 Hfail| |sha file m Hfetched Hacc Hxml Hparse|]; try discriminate.
  - intros Hrest. apply IH in Hrest
      as (pre & u' & rest' & w2 & sha & -> & Hpre & Hrest).
    exists (u :: pre), u', rest', w2, sha. split; [reflexivity|].
    split; [econstructor; eauto | exact Hrest].
  - intros [= <- <- <-]. exists [], u, rest, w, sha.
    repeat split; auto. constructor.
Qed.

Lemma resolveRepomd_error_inv r repo urls sha256sum w e w' :
  resolveRepomd r repo urls sha256sum w = (Return (Err e), w') ->
  (e = exhausted /\ mirrors_fail r repo sha256sum urls w w')
  \/ exists pre u rest w1 sha,
      urls = pre ++ u :: rest
      /\ mirrors_fail r repo sha256sum pre w w1
      /\ index_fetched r repo u w1 sha
      /\ sha256sum ≠ "" /\ toHex sha ≠ sha256sum
      /\ e = mismatch sha256sum (toHex sha)
      /\ w' = put_file (index_key repo) sha (announced u w1).
Proof.
  unfold resolveRepomd, bind.
  destruct (resolveRepomd_loop r repo urls sha256sum w) as [[[[[f m]|]|e0]| |] w1]
    eqn:Hloop; try discriminate; intros [= <- <-].
  - left. split; [reflexivity|]. now apply loop_exhausted_inv.
  - right. now apply loop_error_inv.
Qed.

Lemma resolveRepomd_found_inv r repo urls sha256sum w repomd mirror w' :
  resolveRepomd r repo urls sha256sum w = (Return (Ok (repomd, mirror)), w') ->
  exists pre u rest w1 sha parsed,
    urls = pre ++ u :: rest
    /\ mirrors_fail r repo sha256sum pre w w1
    /\ index_fetched r repo u w1 sha
    /\ sum_accepts sha256sum sha
    /\ xml_Unmarshal_Repomd sha = Ok repomd
    /\ url_Parse u = Ok parsed
    /\ mirror = url.set_Path parsed
                  (strings.TrimSuffix (path.Dir (url.Path parsed)) "repodata")
    /\ w' = put_file (index_key repo) sha (announced u w1).
Proof.
  unfold resolveRepomd, bind.
  destruct (resolveRepomd_loop r repo urls sha256sum w) as [[[[[f m]|]|e0]| |] w1]
    eqn:Hloop; try discriminate; intros [= <- <- <-].
  apply loop_found_inv in Hloop
    as (pre & u & rest & w2 & sha & Hurls & Hpre & Hf & Hacc & Hxml & Hparse & Hw).
  exists pre, u, rest, w2, sha, m. repeat split; auto.
Qed.


End LoopInversion.


(** ** The base path of the pinned mirror *)

Lemma Split_after_slash (d f : string) :
  path.Split f = ("", f) ->
  path.Split ((d +:+ "/") +:+ f) = (d +:+ "/", f).
Proof.
  intros Hf. induction d as [|c d IH].
  - change (("" +:+ "/") +:+ f) with (String path.slash f).
    simpl. rewrite Hf.
    destruct (decide (path.slash = path.slash)) as [_|n]; [reflexivity | now destruct n].
  - rewrite !append_cons. simpl. rewrite IH.
    destruct d; reflexivity.
Qed.



(** ** [path.Clean] on a rooted path of plain elements *)

Lemma components_elem (e t : string) :
  path.components e = [e] ->
  path.components (e +:+ "/" +:+ t) = e :: path.components t.
Proof.
  induction e as [|c e IH]; intros He.
  - change ("" +:+ "/" +:+ t) with (String path.slash t). simpl.
    destruct (decide (path.slash = path.slash)) as [_|n]; [reflexivity | now destruct n].
  - rewrite append_cons. simpl in *.
    destruct (decide (c = path.slash)) as [_|Hc]; [discriminate|].
    destruct (path.components e) as [|x xs] eqn:Hcomp.
    + injection He as <-. discriminate.
    + injection He as -> ->. now rewrite IH.
Qed.

Lemma components_joined (es : list string) (tail : string) :
  Forall plain_elem es ->
  path.components (joined es tail) = es ++ path.components tail.
Proof.
  induction 1 as [|e es (_ & _ & _ & He) _ IH]; [reflexivity|].
  simpl. now rewrite components_elem, IH.
Qed.

Lemma rooted_joined (es : list string) (tail : string) :
  rooted es +:+ "/" +:+ tail = "/" +:+ joined es tail.
Proof.
  induction es as [|e es IH]; [reflexivity|].
  simpl. now rewrite !append_assoc, IH.
Qed.

Lemma clean_plain (rooted_ : bool) (es out : list string) :
  Forall plain_elem es ->
  fold_left (path.clean_elem rooted_) es out = rev es ++ out.
Proof.
  intros Hes. revert out.
  induction Hes as [|e es (He & Hdot & Hdotdot & _) _ IH]; intros out; [reflexivity|].
  simpl. rewrite IH, <- List.app_assoc. f_equal.
  unfold path.clean_elem.
  destruct (decide (e = "")); [contradiction|].
  destruct (decide (e = ".")); [contradiction|].
  destruct (decide (e = "..")); [contradiction|].
  reflexivity.
Qed.

Lemma Join_rooted (es : list string) (x : string) :
  "/" +:+ strings.Join (es ++ [x]) "/" = rooted es +:+ "/" +:+ x.
Proof.
  induction es as [|e es IH]; [reflexivity|].
  simpl. destruct (es ++ [x]) as [|y ys] eqn:Hys.
  - now destruct es.
  - rewrite !append_assoc. rewrite <- IH. reflexivity.
Qed.

Lemma clean_elem_empty (rooted_ : bool) (out : list string) :
  path.clean_elem rooted_ out "" = out.
Proof. reflexivity. Qed.



Example rooted_fedora :
  rooted ["pub"; "fedora"; "36"] +:+ "/repodata/repomd.xml"
  = "/pub/fedora/36/repodata/repomd.xml".
Proof. reflexivity. Qed.

Section TypedClaims.

Context {ext : Externals}.



End TypedClaims.


Section TypedErrors.

Context {ext : Externals}.

Lemma typed_failure_fails r fileType repo repomd mirror w :
  typed_failure r fileType repo repomd mirror w ->
  exists c e w',
    fetchFile_fails r fileType repo repomd mirror w c e w'
    /\ (c = NoEntry \/ c = NoHref \/ c = DigestMismatch).
Proof.
  intros [Hfile|file Hfile Hhref|file resp expected Hfile Hhref Hget Hfault Hfail Hsum Hne].
  - exists NoEntry. do 2 eexists. split; [now constructor | auto].
  - exists NoHref. do 2 eexists. split; [eapply fails_no_href; eauto | auto].
  - exists DigestMismatch. do 2 eexists.
    split; [eapply fails_mismatch; eauto; now repeat split | auto].
Qed.

(** C5: a typed file with no entry in the index, with an entry that has
    no location, or whose fetched bytes do not have the declared digest,
    makes [fetchFile] return an error after one request at most, to the
    pinned mirror; and [Fetch] returns an error for the repository
    without requesting anything more. *)
Theorem typed_file_failure_is_hard
    (r : RepoFetcherImpl) (fileType : string) (repo : bazeldnf.Repository)
    (repomd : api.Repomd.t) (mirror : url.URL) (w : World) :
  typed_failure r fileType repo repomd mirror w ->
  exists e w',
    fetchFile r fileType repo repomd mirror w = (Return (Some e), w')
    /\ (requests w' = requests w
        \/ exists file,
            Repomd_File repomd fileType = Some file
            /\ requests w'
               = requests w ++ [fileURL_of mirror (api.Data.Location_Href file)])
    /\ forall w0 urls sha256sum w1 wi others,
        Fetch_sources r repo w0 = (Return (Ok (urls, sha256sum)), w1) ->
        resolveRepomd r repo urls sha256sum w1 = (Return (Ok (repomd, mirror)), wi) ->
        (fileType = api.PrimaryFileType /\ wi = w)
        \/ (fileType = api.FilelistsFileType
            /\ fetchFile r api.PrimaryFileType repo repomd mirror wi
               = (Return None, w)) ->
        exists stage,
          Fetch_loop r (repo :: others) w0
          = (Return (Some ("failed to fetch " +:+ stage +:+ " for "
                           +:+ bazeldnf.Name repo +:+ ": " +:+ e)), w').
Proof.
  intros Hfailure.
  apply typed_failure_fails in Hfailure as (c & e & w' & Hfails & Hc).
  pose proof (fetchFile_fails_run _ _ _ _ _ _ _ _ _ Hfails) as Hrun.
  exists e, w'. split; [exact Hrun|]. split.
  - pose proof (fetchFile_fails_requests _ _ _ _ _ _ _ _ _ Hfails) as Hreq.
    destruct Hc as [->| [->| ->]]; auto.
  - intros w0 urls sha256sum w1 wi others Hsrc Hidx [[-> ->]|[-> Hprimary]].
    + exists "primary.xml". apply Fetch_loop_stops.
      eapply Fetch_repo_primary_error; eauto.
    + exists "filelists.xml". apply Fetch_loop_stops.
      eapply Fetch_repo_filelists_error; eauto.
Qed.

(** C8: an index entry whose checksum algorithm is not sha256 makes
    [fetchFile] return an error: never success, and never the error of a
    digest comparison, which is not made; once the file is fetched and
    stored, the error is that of the unknown algorithm. *)
Theorem unknown_algorithm_is_an_error
    (r : RepoFetcherImpl) (fileType : string) (repo : bazeldnf.Repository)
    (repomd : api.Repomd.t) (mirror : url.URL) (w : World) (file : api.Data.t) :
  Repomd_File repomd fileType = Some file ->
  api.Data.Checksum_Type file ≠ "sha256" ->
  exists c e w',
    fetchFile r fileType repo repomd mirror w = (Return (Some e), w')
    /\ fetchFile_fails r fileType repo repomd mirror w c e w'
    /\ c ≠ DigestMismatch
    /\ is_ChecksumMismatch e = false
    /\ (api.Data.Location_Href file ≠ "" ->
        (exists resp, typed_fetched r repo mirror file w resp) ->
        c = NoSHA256 /\ e = "failed to get sha256sum of file: no sha256 found").
Proof.
  intros Hfile Halg.
  assert (Data_SHA256 file = Err "no sha256 found") as Hsum.
  { unfold Data_SHA256. destruct (decide _) as [e|_]; [contradiction | reflexivity]. }
  pose proof (fetchFile_run r fileType repo repomd mirror w) as Hrun.
  destruct (fetchFile r fileType repo repomd mirror w) as [[[e|]| |] w'] eqn:Hff;
    try contradiction.
  - destruct Hrun as [c Hc]. exists c, e, w'.
    split; [reflexivity|]. split; [exact Hc|].
    assert (c ≠ DigestMismatch) as Hne.
    { intros ->. inversion Hc as [| | | | | |file' resp expected Hfile' _ _ Hsum' _].
      congruence. }
    split; [exact Hne|]. split.
    { destruct (is_ChecksumMismatch e) eqn:Hk; [|reflexivity].
      now apply (fetchFile_fails_kind _ _ _ _ _ _ _ _ _ Hc) in Hk. }
    intros Hhref [resp (Hget & Hfault & Hfail)].
    destruct Hc as [Hn|f Hf Hh|f err Hf Hh Hg|f rs err Hf Hh Hg Hfa
                   |f rs err Hf Hh Hg Hfa Hfl|f rs err Hf Hh Hfe Hs
                   |f rs expected Hf Hh Hfe Hs Hn];
      try congruence.
    split; [reflexivity|].
    assert (err = "no sha256 found") as -> by congruence. reflexivity.
  - destruct Hrun as (file' & resp & Hfile' & _ & _ & Hsum' & _). congruence.
Qed.

(** C10: when the digest of a typed file differs from the declared one,
    [fetchFile] returns the mismatch error and the cache holds, under the
    file's name, all the bytes that were fetched. *)
Theorem mismatched_file_stays_on_disk
    (r : RepoFetcherImpl) (fileType : string) (repo : bazeldnf.Repository)
    (repomd : api.Repomd.t) (mirror : url.URL) (w : World)
    (file : api.Data.t) (resp : Response) (expected : string) :
  Repomd_File repomd fileType = Some file ->
  api.Data.Location_Href file ≠ "" ->
  typed_fetched r repo mirror file w resp ->
  Data_SHA256 file = Ok expected ->
  expected ≠ toHex (delivered (Body resp)) ->
  exists w',
    fetchFile r fileType repo repomd mirror w
    = (Return (Some (mismatch expected (toHex (delivered (Body resp))))), w')
    /\ files w' !! (bazeldnf.Name repo, path.Base (api.Data.Location_Href file))
       = Some (delivered (Body resp)).
Proof.
  intros Hfile Hhref Hfetched Hsum Hne.
  eexists. split.
  - eapply fetchFile_fails_run, fails_mismatch; eauto.
  - simpl. apply lookup_insert_eq.
Qed.

End TypedErrors.

Lemma typed_file_failure_is_hard_witness :
  let r := sample.fetcher [sample.fedora] in
  exists e w',
    fetchFile (ext := sample.ext) r "filelists" sample.fedora sample.tampered
      sample.pinned_b sample.start
    = (Return (Some e), w')
    /\ (requests w' = requests sample.start
        \/ exists file,
            Repomd_File sample.tampered "filelists" = Some file
            /\ requests w'
               = requests sample.start
                 ++ [fileURL_of (ext := sample.ext) sample.pinned_b
                       (api.Data.Location_Href file)]).
Proof.
  intros r.
  destruct (typed_file_failure_is_hard (ext := sample.ext) r "filelists"
              sample.fedora sample.tampered sample.pinned_b sample.start)
    as (e & w' & Hrun & Hreq & _).
  - apply missing_entry. reflexivity.
  - exists e, w'. split; [exact Hrun | exact Hreq].
Defined.

Lemma unknown_algorithm_is_an_error_witness :
  let r := sample.fetcher [sample.fedora] in
  let file := sample.mkData "primary" "md5" "9e107d9d372bb6826bd81d3542a419d6"
                "repodata/primary.xml.gz" in
  exists w',
    fetchFile (ext := sample.ext) r "primary" sample.fedora (sample.mkRepomd [file])
      sample.pinned_b sample.start
    = (Return (Some "failed to get sha256sum of file: no sha256 found"), w').
Proof.
  intros r file.
  destruct (unknown_algorithm_is_an_error (ext := sample.ext) r "primary"
              sample.fedora (sample.mkRepomd [file]) sample.pinned_b sample.start file)
    as (c & e & w' & Hrun & _ & _ & _ & Hcause).
  - reflexivity.
  - discriminate.
  - exists w'. rewrite Hrun.
    destruct Hcause as [_ ->]; [discriminate| |reflexivity].
    exists {| Body := {| delivered := sample.primary_doc; failure := None |} |}.
    repeat split; reflexivity.
Defined.

Lemma mismatched_file_stays_on_disk_witness :
  exists w',
    fetchFile (ext := sample.ext) (sample.fetcher [sample.fedora]) "primary"
      sample.fedora sample.tampered sample.pinned_b sample.start
    = (Return (Some (mismatch "0000" (toHex sample.primary_doc))), w')
    /\ files w' !! ("fedora", "primary.xml.gz") = Some sample.primary_doc.
Proof.
  apply (mismatched_file_stays_on_disk (ext := sample.ext)
           (sample.fetcher [sample.fedora]) "primary" sample.fedora sample.tampered
           sample.pinned_b sample.start
           (sample.mkData "primary" "sha256" "0000" "repodata/primary.xml.gz")
           {| Body := {| delivered := sample.primary_doc; failure := None |} |} "0000").
  - reflexivity.
  - discriminate.
  - repeat split; reflexivity.
  - reflexivity.
  - vm_compute. discriminate.
Defined.

Section FetchClaims.

Context {ext : Externals}.

(** ** The loop over the repositories *)

Lemma Fetch_loop_app r pre rest w w1 :
  Fetch_loop r pre w = (Return None, w1) ->
  Fetch_loop r (pre ++ rest) w = Fetch_loop r rest w1.
Proof.
  revert w. induction pre as [|repo pre IH]; intros w; simpl.
  - now intros [= <-].
  - unfold bind.
    destruct (Fetch_repo r repo w) as [[[e|]| |] w2]; try discriminate.
    apply IH.
Qed.

(** [Fetch] stops at the first repository that fails: those after it
    leave no trace in the world. *)
Lemma Fetch_fails_fast r pre repo rest w w1 e w2 :
  Fetch_loop r pre w = (Return None, w1) ->
  Fetch_repo r repo w1 = (Return (Some e), w2) ->
  Fetch_loop r (pre ++ repo :: rest) w = (Return (Some e), w2).
Proof.
  intros Hpre Hrepo. rewrite (Fetch_loop_app _ _ _ _ _ Hpre).
  now apply Fetch_loop_stops.
Qed.

(** The errors of one repository: four name the stage and the
    repository, the fifth the stage alone. *)
Lemma Fetch_repo_error_shape r repo w e w' :
  Fetch_repo r repo w = (Return (Some e), w') ->
  (exists stage detail,
      In stage ["failed to resolve metalink for "; "failed to fetch repomd.xml for ";
                "failed to fetch primary.xml for ";
                "failed to fetch filelists.xml for "]
      /\ e = stage +:+ bazeldnf.Name repo +:+ ": " +:+ detail)
  \/ exists detail, e = "failed to get sha256sum of repomd file: " +:+ detail.
Proof.
  unfold Fetch_repo, bind.
  destruct (Fetch_sources r repo w) as [[[[urls sum]|e0]| |] w1] eqn:Hsrc;
    try discriminate.
  - destruct (resolveRepomd r repo urls sum w1) as [[[[repomd mirror]|e1]| |] w2];
      try discriminate.
    + destruct (fetchFile r api.PrimaryFileType repo repomd mirror w2)
        as [[[e2|]| |] w3]; try discriminate.
      * intros [= <- <-]. left. do 2 eexists. split; [|reflexivity]. simpl; auto.
      * destruct (fetchFile r api.FilelistsFileType repo repomd mirror w3)
          as [[[e3|]| |] w4]; try discriminate.
        intros [= <- <-]. left. do 2 eexists. split; [|reflexivity]. simpl; auto.
    + intros [= <- <-]. left. do 2 eexists. split; [|reflexivity]. simpl; auto.
  - intros [= <- <-]. revert Hsrc. unfold Fetch_sources.
    destruct (decide (bazeldnf.Metalink repo ≠ "")) as [_|_].
    + unfold bind.
      destruct (resolveMetaLink r repo w) as [[[[m urls] [e1|]]| |] w2];
        try discriminate.
      * intros [= <- <-]. left. do 2 eexists. split; [|reflexivity]. simpl; auto.
      * destruct (m ≫= Metalink_Repomod) as [repomod|]; [|discriminate].
        destruct (File_SHA256 repomod) as [s|e2]; [discriminate|].
        intros [= <- <-]. right. now eexists.
    + destruct (decide _); discriminate.
Qed.

(** The nil dereference of [metalink.Repomod().SHA256()] cannot happen:
    [resolveMetaLink] returns no error only with a metalink that has the
    entry. *)
Lemma Fetch_sources_no_panic r repo w :
  fst (Fetch_sources r repo w) ≠ Panic.
Proof.
  unfold Fetch_sources.
  destruct (decide (bazeldnf.Metalink repo ≠ "")) as [_|_].
  2:{ destruct (decide _); discriminate. }
  unfold bind, resolveMetaLink at 1, bind, Get, WriteToRepoDir, LoadMetaLink, ret.
  simpl.
  destruct (Getter_ r _ _); simpl; [|discriminate].
  destruct (faults w !! _); simpl; [discriminate|].
  destruct (failure _); simpl; [discriminate|].
  rewrite lookup_insert_eq.
  destruct (xml_Unmarshal_Metalink _) as [m|]; simpl; [|discriminate].
  destruct (Metalink_Repomod m) as [repomod|] eqn:Hrepomod; simpl; [|discriminate].
  destruct (decide _); simpl; [discriminate|].
  rewrite Hrepomod. destruct (File_SHA256 repomod); discriminate.
Qed.

(** ** Where the candidates come from *)

Lemma loop_with_Baseurl r repo baseurl urls sha256sum :
  resolveRepomd_loop r (with_Baseurl repo baseurl) urls sha256sum
  = resolveRepomd_loop r repo urls sha256sum.
Proof.
  induction urls as [|u rest IH]; [reflexivity|].
  simpl. now rewrite IH.
Qed.

Lemma resolveRepomd_with_Baseurl r repo baseurl urls sha256sum :
  resolveRepomd r (with_Baseurl repo baseurl) urls sha256sum
  = resolveRepomd r repo urls sha256sum.
Proof. unfold resolveRepomd. now rewrite loop_with_Baseurl. Qed.

Lemma Fetch_sources_metalink r repo baseurl :
  bazeldnf.Metalink repo ≠ "" ->
  Fetch_sources r (with_Baseurl repo baseurl) = Fetch_sources r repo.
Proof.
  intros Hm. unfold Fetch_sources. simpl.
  destruct (decide (bazeldnf.Metalink repo ≠ "")) as [_|n]; [reflexivity|contradiction].
Qed.

(** C9: for a repository with a metalink, [Fetch] does what it does for
    the same repository with any other base URL, and the candidates it
    passes on are the list [resolveMetaLink] returned; the URL made from
    the base URL is the candidate only when the metalink is empty. *)
Theorem metalink_takes_precedence
    (r : RepoFetcherImpl) (repo : bazeldnf.Repository) (w : World) :
  (bazeldnf.Metalink repo ≠ "" ->
   (forall baseurl,
       Fetch_sources r (with_Baseurl repo baseurl) w = Fetch_sources r repo w
       /\ Fetch_repo r (with_Baseurl repo baseurl) w = Fetch_repo r repo w)
   /\ forall urls sha256sum w',
       Fetch_sources r repo w = (Return (Ok (urls, sha256sum)), w') ->
       exists metalink,
         resolveMetaLink r repo w = (Return (Some metalink, urls, None), w'))
  /\ (bazeldnf.Metalink repo = "" ->
      bazeldnf.Baseurl repo ≠ "" ->
      Fetch_sources r repo w
      = (Return (Ok ([strings.TrimSuffix (bazeldnf.Baseurl repo) "/"
                      +:+ "/repodata/repomd.xml"], "")), w)).
Proof.
  split.
  - intros Hm. split.
    + intros baseurl. split; [now rewrite Fetch_sources_metalink|].
      unfold Fetch_repo. rewrite Fetch_sources_metalink by exact Hm.
      unfold bind. destruct (Fetch_sources r repo w) as [[[[urls sum]|e]| |] w1];
        try reflexivity.
      rewrite resolveRepomd_with_Baseurl. reflexivity.
    + intros urls sha256sum w'. unfold Fetch_sources.
      destruct (decide (bazeldnf.Metalink repo ≠ "")) as [_|n]; [|contradiction].
      unfold bind.
      destruct (resolveMetaLink r repo w) as [[[[m us] [e1|]]| |] w2];
        try discriminate.
      destruct m as [m|]; simpl; [|discriminate].
      destruct (Metalink_Repomod m) as [repomod|]; [|discriminate].
      destruct (File_SHA256 repomod) as [s|e2]; [|discriminate].
      intros [= <- <- <-]. now exists m.
  - intros Hm Hb. unfold Fetch_sources.
    destruct (decide (bazeldnf.Metalink repo ≠ "")) as [n|_]; [contradiction|].
    destruct (decide (bazeldnf.Baseurl repo ≠ "")) as [_|n]; [reflexivity|contradiction].
Qed.

End FetchClaims.

Lemma metalink_takes_precedence_witness :
  let r := sample.fetcher [sample.fedora] in
  (forall baseurl,
      Fetch_repo (ext := sample.ext) r (with_Baseurl sample.fedora baseurl) sample.start
      = Fetch_repo (ext := sample.ext) r sample.fedora sample.start)
  /\ Fetch_sources (ext := sample.ext) r sample.updates sample.start
     = (Return (Ok (["https://b.example/fedora/repodata/repomd.xml"], "")), sample.start).
Proof.
  intros r. split.
  - intros baseurl.
    destruct (metalink_takes_precedence (ext := sample.ext) r sample.fedora
                sample.start) as [Hmeta _].
    destruct Hmeta as [Hsame _]; [discriminate|]. apply Hsame.
  - destruct (metalink_takes_precedence (ext := sample.ext) r sample.updates
                sample.start) as [_ Hbase].
    apply Hbase; [reflexivity | discriminate].
Defined.

(** C7, where the code departs from it: with two repositories configured
    and a metalink that states no sha256 digest for the index of the first,
    [Fetch] stops at the first repository, having requested the metalink
    only, and the error it returns tells the stage but not the repository. *)
Theorem Fetch_checksum_error_omits_repository :
  let r := sample.fetcher [sample.fedora; sample.updates] in
  let e := "failed to get sha256sum of repomd file: no sha256 found" in
  exists w',
    Fetch (ext := sample.ext_nosum) r sample.start = (Return (Some e), w')
    /\ requests w' = [sample.metalink_url]
    /\ strings.Contains e (bazeldnf.Name sample.fedora) = false
    /\ strings.Contains e (bazeldnf.Name sample.updates) = false.
Proof.
  intros r e. eexists. split; [vm_compute; reflexivity|].
  repeat split; reflexivity.
Qed.

(** ** The frame of a run *)

Lemma extends_for_refl name w : extends_for name w w.
Proof.
  repeat split; auto; exists []; now rewrite app_nil_r.
Qed.

Lemma extends_for_trans name w1 w2 w3 :
  extends_for name w1 w2 -> extends_for name w2 w3 -> extends_for name w1 w3.
Proof.
  intros ([r1 Hr1] & [l1 Hl1] & Hf1 & Ho1 & Hk1) ([r2 Hr2] & [l2 Hl2] & Hf2 & Ho2 & Hk2).
  repeat split.
  - exists (r1 ++ r2). now rewrite Hr2, Hr1, <- List.app_assoc.
  - exists (l1 ++ l2). now rewrite Hl2, Hl1, <- List.app_assoc.
  - congruence.
  - intros k Hk. now rewrite Ho2, Ho1.
  - intros k Hk. auto.
Qed.

Lemma keeps_ret {A} name (a : A) : keeps name (ret a).
Proof. intros w. apply extends_for_refl. Qed.

Lemma keeps_bind {A B} name (m : M A) (k : A -> M B) :
  keeps name m -> (forall a, keeps name (k a)) -> keeps name (bind m k).
Proof.
  intros Hm Hk w. unfold bind. specialize (Hm w).
  destruct (m w) as [[a| |] w1]; simpl in *; try exact Hm.
  eapply extends_for_trans; [exact Hm | apply Hk].
Qed.

Lemma keeps_add_log name l msg w : extends_for name w (add_log l msg w).
Proof.
  repeat split; auto; [exists [] | exists [(l, msg)]]; simpl; auto.
  now rewrite app_nil_r.
Qed.

Lemma keeps_Get name r u : keeps name (Get r u).
Proof.
  intros w. repeat split; auto; [exists [u] | exists []]; simpl; auto.
  now rewrite app_nil_r.
Qed.

Lemma keeps_WriteToRepoDir c repo body file :
  keeps (bazeldnf.Name repo) (WriteToRepoDir c repo body file).
Proof.
  intros w. unfold WriteToRepoDir.
  destruct (faults w !! _); simpl; [apply extends_for_refl|].
  repeat split; auto; try (exists []; simpl; now rewrite app_nil_r).
  - intros k Hk. simpl. apply lookup_insert_ne. intros <-. now apply Hk.
  - intros k Hk. simpl. rewrite lookup_insert.
    destruct (decide _); [eauto | exact Hk].
Qed.

Section Frame.

Context {ext : Externals}.

Lemma keeps_LoadMetaLink name c repo : keeps name (LoadMetaLink c repo).
Proof.
  intros w. unfold LoadMetaLink. destruct (files w !! _); apply extends_for_refl.
Qed.

Lemma keeps_UnmarshalFromRepoDir name c repo file :
  keeps name (UnmarshalFromRepoDir c repo file).
Proof.
  intros w. unfold UnmarshalFromRepoDir. destruct (files w !! _); apply extends_for_refl.
Qed.

Ltac keeps_step :=
  first
    [ apply keeps_ret
    | apply keeps_Get
    | apply keeps_WriteToRepoDir
    | apply keeps_LoadMetaLink
    | apply keeps_UnmarshalFromRepoDir
    | (intros ?; apply keeps_add_log)
    | (apply keeps_bind; [| intros ?])
    | match goal with
      | |- keeps _ (match ?x with _ => _ end) => destruct x
      | |- keeps _ (if ?x then _ else _) => destruct x
      end ].

Lemma keeps_resolveMetaLink r repo :
  keeps (bazeldnf.Name repo) (resolveMetaLink r repo).
Proof. unfold resolveMetaLink. repeat keeps_step. Qed.

Lemma keeps_iter r repo sha256sum u :
  keeps (bazeldnf.Name repo) (resolveRepomd_iter r repo sha256sum u).
Proof.
  unfold resolveRepomd_iter, log.Infof, log.Errorf, log.Fatalf. repeat keeps_step.
Qed.

Lemma keeps_loop r repo urls sha256sum :
  keeps (bazeldnf.Name repo) (resolveRepomd_loop r repo urls sha256sum).
Proof.
  induction urls as [|u rest IH]; simpl; [apply keeps_ret|].
  apply keeps_bind; [apply keeps_iter|].
  intros [| |]; [exact IH | apply keeps_ret | apply keeps_ret].
Qed.

Lemma keeps_resolveRepomd r repo urls sha256sum :
  keeps (bazeldnf.Name repo) (resolveRepomd r repo urls sha256sum).
Proof.
  unfold resolveRepomd. apply keeps_bind; [apply keeps_loop|].
  intros a. repeat keeps_step.
Qed.

Lemma keeps_fetchFile r fileType repo repomd mirror :
  keeps (bazeldnf.Name repo) (fetchFile r fileType repo repomd mirror).
Proof. unfold fetchFile, log.Infof. repeat keeps_step. Qed.

Lemma keeps_Fetch_sources r repo :
  keeps (bazeldnf.Name repo) (Fetch_sources r repo).
Proof.
  unfold Fetch_sources.
  destruct (decide _); [| destruct (decide _); apply keeps_ret].
  apply keeps_bind; [apply keeps_resolveMetaLink|].
  intros [[m urls] [e|]]; [apply keeps_ret|].
  destruct (m ≫= Metalink_Repomod); [| intros w; apply extends_for_refl].
  destruct (File_SHA256 _); apply keeps_ret.
Qed.

(** The body of the loop of [Fetch], however it ends, only adds requests
    and log lines, removes no cached file, and leaves alone the faults and
    the cached files of every other repository. *)
Lemma Fetch_repo_keeps_others (r : RepoFetcherImpl) (repo : bazeldnf.Repository)
    (w : World) :
  extends_for (bazeldnf.Name repo) w (snd (Fetch_repo r repo w)).
Proof.
  revert w. change (keeps (bazeldnf.Name repo) (Fetch_repo r repo)).
  unfold Fetch_repo.
  apply keeps_bind; [apply keeps_Fetch_sources|].
  intros [[urls sum]|e]; [| apply keeps_ret].
  apply keeps_bind; [apply keeps_resolveRepomd|].
  intros [[repomd mirror]|e]; [| apply keeps_ret].
  apply keeps_bind; [apply keeps_fetchFile|].
  intros [e|]; [apply keeps_ret|].
  apply keeps_bind; [apply keeps_fetchFile|].
  intros [e|]; apply keeps_ret.
Qed.

(** [Fetch], however it ends, only adds requests, removes no cached file,
    never changes the faults, and leaves every cached file of a repository
    that is not in its list as it was. *)
Theorem Fetch_keeps_unlisted (r : RepoFetcherImpl) (w : World) :
  let w' := snd (Fetch r w) in
  (exists more, requests w' = requests w ++ more)
  /\ faults w' = faults w
  /\ (forall k, is_Some (files w !! k) -> is_Some (files w' !! k))
  /\ (forall k,
        ~ In (fst k) (map bazeldnf.Name (Repos r)) ->
        files w' !! k = files w !! k).
Proof.
  unfold Fetch. generalize (Repos r) as repos. intros repos. revert w.
  induction repos as [|repo rest IH]; intros w; simpl.
  - repeat split; auto. exists []. now rewrite app_nil_r.
  - unfold bind.
    pose proof (Fetch_repo_keeps_others r repo w) as Hrepo.
    destruct (Fetch_repo r repo w) as [[[e|]| |] w1]; simpl in *.
    2:{ destruct Hrepo as ([m1 Hm1] & _ & Hf1 & Ho1 & Hk1).
        destruct (IH w1) as ([m2 Hm2] & Hf2 & Hk2 & Ho2).
        repeat split.
        - exists (m1 ++ m2). now rewrite Hm2, Hm1, <- List.app_assoc.
        - congruence.
        - auto.
        - intros k Hk. rewrite Ho2 by (intros Hin; apply Hk; now right).
          apply Ho1. intros Heq. apply Hk. left. now symmetry. }
    all: destruct Hrepo as (Hm1 & _ & Hf1 & Ho1 & Hk1);
      repeat split; auto; intros k Hk; apply Ho1;
      intros Heq; apply Hk; left; now symmetry.
Qed.

End Frame.

Section Runs.

Context {ext : Externals}.

(** ** The requests of [resolveRepomd] *)

Lemma iter_ends_requests r repo sha256sum u w out w' :
  iter_ends r repo sha256sum u w out w' -> requests w' = requests w ++ [u].
Proof.
  destruct 1 as [w' Hfail| | |]; try reflexivity.
  now apply mirror_fails_logged in Hfail.
Qed.

Lemma loop_requests r repo urls sha256sum w :
  exists n,
    n <= length urls
    /\ requests (snd (resolveRepomd_loop r repo urls sha256sum w))
       = requests w ++ firstn n urls.
Proof.
  revert w. induction urls as [|u rest IH]; intros w; simpl.
  - exists 0. split; [lia|]. now rewrite app_nil_r.
  - unfold bind.
    pose proof (iter_run r repo sha256sum u w) as Hit.
    destruct (resolveRepomd_iter r repo sha256sum u w) as [out w1]. simpl in Hit.
    apply iter_ends_requests in Hit.
    destruct out as [[| |]| |]; simpl;
      try (exists 1; split; [lia | exact Hit]).
    destruct (IH w1) as (n & Hn & Hreq). exists (S n). split; [lia|].
    rewrite Hreq, Hit. simpl. now rewrite <- List.app_assoc.
Qed.

(** However [resolveRepomd] ends, the requests it has made are the first
    candidates of the list, in the order of the list, each once: at least
    one when there is a candidate, and all of them when the error is that
    the mirrors are exhausted. *)
Theorem resolveRepomd_requests_in_order
    (r : RepoFetcherImpl) (repo : bazeldnf.Repository) (urls : list string)
    (sha256sum : string) (w : World) :
  let run := resolveRepomd r repo urls sha256sum w in
  exists n,
    n <= length urls
    /\ requests (snd run) = requests w ++ firstn n urls
    /\ (urls ≠ [] -> 1 <= n)
    /\ (fst run = Return (Err exhausted) -> n = length urls).
Proof.
  intros run.
  destruct (loop_requests r repo urls sha256sum w) as (n & Hn & Hreq).
  assert (requests (snd run) = requests w ++ firstn n urls) as Hrun.
  { subst run. unfold resolveRepomd, bind.
    destruct (resolveRepomd_loop r repo urls sha256sum w) as [[[[[f m]|]|e]| |] w1];
      exact Hreq. }
  exists n. split; [exact Hn|]. split; [exact Hrun|]. split.
  - intros Hne. destruct n; [|lia]. exfalso.
    destruct urls as [|u rest]; [contradiction|].
    clear Hrun. revert Hreq. simpl. unfold bind.
    pose proof (iter_run r repo sha256sum u w) as Hit.
    destruct (resolveRepomd_iter r repo sha256sum u w) as [out w1]. simpl in Hit.
    apply iter_ends_requests in Hit.
    assert (forall w2, (exists k, requests w2 = requests w1 ++ k) ->
                       requests w2 = requests w ++ [] -> False) as Hno.
    { intros w2 [k Hk] Hw2. rewrite Hk, Hit, app_nil_r, <- List.app_assoc in Hw2.
      apply (f_equal (@length string)) in Hw2. rewrite !length_app in Hw2.
      simpl in Hw2. lia. }
    destruct out as [[| |]| |]; simpl; intros Hreq;
      try (apply (Hno w1); [exists []; now rewrite app_nil_r | exact Hreq]).
    apply (Hno _ (ltac:(destruct (loop_requests r repo rest sha256sum w1)
                         as (k & _ & Hk); eauto)) Hreq).
  - intros Hex.
    assert (run = (Return (Err exhausted), snd run)) as Hrun'
      by (rewrite <- Hex; apply surjective_pairing).
    apply resolveRepomd_error_inv in Hrun'
      as [[_ Hall]|(? & ? & ? & ? & ? & _ & _ & _ & _ & _ & He & _)];
      [| discriminate He].
    apply mirrors_fail_requests in Hall. rename Hall into Hrun'. rewrite Hrun' in Hrun.
    apply app_inv_head in Hrun.
    apply (f_equal (@length string)) in Hrun. rewrite length_firstn in Hrun. lia.
Qed.

End Runs.

Section Ends.

Context {ext : Externals}.

(** ** How a run ends *)

Lemma loop_ends_well r repo urls sha256sum w :
  ends_well r (fst (resolveRepomd_loop r repo urls sha256sum w)).
Proof.
  revert w. induction urls as [|u rest IH]; intros w; simpl; [exact I|].
  unfold bind.
  pose proof (iter_run r repo sha256sum u w) as Hit.
  destruct (resolveRepomd_iter r repo sha256sum u w) as [out w1]. simpl in Hit.
  destruct Hit as [w1 _| | |sha file err (resp & Hget & _) _ _ Hparse]; simpl;
    try exact I; [apply IH|].
  now exists (requests w), u, resp, err.
Qed.

Lemma resolveRepomd_ends_well r repo urls sha256sum w :
  ends_well r (fst (resolveRepomd r repo urls sha256sum w)).
Proof.
  unfold resolveRepomd, bind.
  pose proof (loop_ends_well r repo urls sha256sum w) as Hloop.
  destruct (resolveRepomd_loop r repo urls sha256sum w) as [[[[[f m]|]|e]| |] w1];
    simpl in *; auto.
Qed.

Lemma fetchFile_returns r fileType repo repomd mirror w :
  exists err, fst (fetchFile r fileType repo repomd mirror w) = Return err.
Proof.
  pose proof (fetchFile_run r fileType repo repomd mirror w) as Hrun.
  destruct (fetchFile r fileType repo repomd mirror w) as [[err| |] w'];
    [now exists err | contradiction | contradiction].
Qed.

Lemma Fetch_sources_returns r repo w :
  exists src, fst (Fetch_sources r repo w) = Return src.
Proof.
  unfold Fetch_sources.
  destruct (decide (bazeldnf.Metalink repo ≠ "")) as [_|_].
  2:{ destruct (decide _); eauto. }
  unfold bind, resolveMetaLink, bind, Get, WriteToRepoDir, LoadMetaLink, ret.
  simpl.
  destruct (Getter_ r _ _); simpl; [|eauto].
  destruct (faults w !! _); simpl; [eauto|].
  destruct (failure _); simpl; [eauto|].
  rewrite lookup_insert_eq.
  destruct (xml_Unmarshal_Metalink _) as [m|]; simpl; [|eauto].
  destruct (Metalink_Repomod m) as [repomod|] eqn:Hrepomod; simpl; [|eauto].
  destruct (decide _); simpl; [eauto|].
  rewrite Hrepomod. destruct (File_SHA256 repomod); eauto.
Qed.

Lemma Fetch_repo_ends_well r repo w : ends_well r (fst (Fetch_repo r repo w)).
Proof.
  unfold Fetch_repo, bind.
  destruct (Fetch_sources_returns r repo w) as [src Hsrc].
  destruct (Fetch_sources r repo w) as [out w1]. simpl in Hsrc. subst out.
  destruct src as [[urls sum]|e]; [|exact I].
  unfold bind.
  pose proof (resolveRepomd_ends_well r repo urls sum w1) as Hidx.
  destruct (resolveRepomd r repo urls sum w1) as [[[[repomd mirror]|e]| |] w2];
    simpl in *; auto.
  unfold bind.
  destruct (fetchFile_returns r api.PrimaryFileType repo repomd mirror w2) as [e1 H1].
  destruct (fetchFile r api.PrimaryFileType repo repomd mirror w2) as [out w3].
  simpl in H1. subst out. destruct e1; [exact I|].
  unfold bind.
  destruct (fetchFile_returns r api.FilelistsFileType repo repomd mirror w3) as [e2 H2].
  destruct (fetchFile r api.FilelistsFileType repo repomd mirror w3) as [out w4].
  simpl in H2. subst out. now destruct e2.
Qed.

Lemma Fetch_loop_ends_well r repos w : ends_well r (fst (Fetch_loop r repos w)).
Proof.
  revert w. induction repos as [|repo rest IH]; intros w; simpl; [exact I|].
  unfold bind.
  pose proof (Fetch_repo_ends_well r repo w) as Hrepo.
  destruct (Fetch_repo r repo w) as [[[e|]| |] w1]; simpl in *; auto.
Qed.

(** [Fetch] never dereferences nil, and it ends the process only through
    the [log.Fatalf] of [resolveRepomd], when the getter has answered a URL
    that [url.Parse] rejects; otherwise it returns. *)
Theorem Fetch_ends_well (r : RepoFetcherImpl) (w : World) :
  ends_well r (fst (Fetch r w)).
Proof. apply Fetch_loop_ends_well. Qed.

(** With a getter that answers only URLs that [url.Parse] accepts, [Fetch]
    returns: with nil or with an error. *)
Theorem Fetch_returns (r : RepoFetcherImpl) (w : World) :
  (forall history u resp,
      Getter_ r history u = Ok resp -> exists parsed, url_Parse u = Ok parsed) ->
  exists err, fst (Fetch r w) = Return err.
Proof.
  intros Hparse. pose proof (Fetch_loop_ends_well r (Repos r) w) as Hends.
  fold (Fetch r) in Hends.
  destruct (fst (Fetch r w)) as [err| |]; [now exists err | | contradiction].
  destruct Hends as (history & u & resp & err & Hget & Herr).
  destruct (Hparse _ _ _ Hget) as [parsed Hok]. congruence.
Qed.

End Ends.

Lemma sample_Parse_total (u : string) : exists parsed, sample.Parse u = Ok parsed.
Proof.
  unfold sample.Parse. destruct (sample.cut_scheme u) as [[scheme rest]|]; [|eauto].
  destruct (sample.cut_host rest). eauto.
Qed.

Lemma Fetch_returns_witness :
  exists err,
    fst (Fetch (ext := sample.ext) (sample.fetcher [sample.fedora; sample.updates])
           sample.start)
    = Return err.
Proof.
  apply (Fetch_returns (ext := sample.ext)).
  intros history u resp _. apply sample_Parse_total.
Defined.

Section Success.

Context {ext : Externals}.

(** ** What a successful run has verified *)



(** When [resolveRepomd] returns an index, the cache holds as repomd.xml
    the bytes that index was decoded from, and their digest is the
    recorded checksum when one was recorded. *)
Theorem resolveRepomd_success_verified
    (r : RepoFetcherImpl) (repo : bazeldnf.Repository) (urls : list string)
    (sha256sum : string) (w : World) (repomd : api.Repomd.t) (mirror : url.URL)
    (w' : World) :
  resolveRepomd r repo urls sha256sum w = (Return (Ok (repomd, mirror)), w') ->
  exists sha,
    files w' !! (bazeldnf.Name repo, "repomd.xml") = Some sha
    /\ xml_Unmarshal_Repomd sha = Ok repomd
    /\ (sha256sum ≠ "" -> toHex sha = sha256sum).
Proof.
  intros Hrun.
  apply resolveRepomd_found_inv in Hrun
    as (pre & u & rest & w1 & sha & parsed & _ & _ & _ & Hacc & Hxml & _ & _ & ->).
  exists sha. split; [simpl; apply lookup_insert_eq|]. split; [exact Hxml|].
  intros Hsum. destruct (decide (toHex sha = sha256sum)) as [e|n]; [exact e|].
  destruct Hacc. now split.
Qed.

(** Without a recorded checksum [resolveRepomd] compares no digest: the one
    error it can return is that the mirrors are exhausted. *)
Theorem resolveRepomd_unverified_without_checksum
    (r : RepoFetcherImpl) (repo : bazeldnf.Repository) (urls : list string)
    (w : World) (e : string) (w' : World) :
  resolveRepomd r repo urls "" w = (Return (Err e), w') ->
  e = exhausted /\ mirrors_fail r repo "" urls w w'.
Proof.
  intros Hrun.
  apply resolveRepomd_error_inv in Hrun
    as [Hall|(? & ? & ? & ? & ? & _ & _ & _ & Hsum & _)]; [exact Hall|].
  now destruct Hsum.
Qed.

(** When [resolveRepomd] returns the mismatch error, the index that failed
    the test is what the cache holds as repomd.xml. *)
Theorem index_mismatch_leaves_file
    (r : RepoFetcherImpl) (repo : bazeldnf.Repository) (urls : list string)
    (sha256sum : string) (w : World) (e : string) (w' : World) :
  resolveRepomd r repo urls sha256sum w = (Return (Err e), w') ->
  e ≠ exhausted ->
  exists sha,
    files w' !! (bazeldnf.Name repo, "repomd.xml") = Some sha
    /\ toHex sha ≠ sha256sum
    /\ e = mismatch sha256sum (toHex sha).
Proof.
  intros Hrun He.
  apply resolveRepomd_error_inv in Hrun
    as [[Hex _]|(pre & u & rest & w1 & sha & _ & _ & _ & _ & Hne & -> & ->)];
    [contradiction|].
  exists sha. split; [simpl; apply lookup_insert_eq | auto].
Qed.

Lemma fetchFile_success_inv
    (r : RepoFetcherImpl) (fileType : string) (repo : bazeldnf.Repository)
    (repomd : api.Repomd.t) (mirror : url.URL) (w w' : World) :
  fetchFile r fileType repo repomd mirror w = (Return None, w') ->
  exists file bytes,
    Repomd_File repomd fileType = Some file
    /\ api.Data.Checksum_Type file = "sha256"
    /\ requests w' = requests w ++ [fileURL_of mirror (api.Data.Location_Href file)]
    /\ files w' !! (bazeldnf.Name repo, path.Base (api.Data.Location_Href file))
       = Some bytes
    /\ toHex bytes = api.Data.Checksum_Text file.
Proof.
  intros Hrun. pose proof (fetchFile_run r fileType repo repomd mirror w) as H.
  rewrite Hrun in H. destruct H as (file & resp & Hfile & _ & _ & Hsum & ->).
  exists file, (delivered (Body resp)). split; [exact Hfile|].
  unfold Data_SHA256 in Hsum.
  destruct (decide (api.Data.Checksum_Type file = "sha256")) as [Halg|_];
    [|discriminate].
  injection Hsum as Hsum.
  repeat split; auto. simpl. apply lookup_insert_eq.
Qed.

(** When [fetchFile] returns nil, the entry declares a sha256 checksum, one
    request was made, for the file's URL on the pinned mirror, and the
    cache holds under the file's base name bytes whose digest is the
    declared checksum. *)
Theorem fetchFile_success_verified
    (r : RepoFetcherImpl) (fileType : string) (repo : bazeldnf.Repository)
    (repomd : api.Repomd.t) (mirror : url.URL) (w w' : World) :
  fetchFile r fileType repo repomd mirror w = (Return None, w') ->
  exists file bytes,
    Repomd_File repomd fileType = Some file
    /\ api.Data.Checksum_Type file = "sha256"
    /\ requests w' = requests w ++ [fileURL_of mirror (api.Data.Location_Href file)]
    /\ files w' !! (bazeldnf.Name repo, path.Base (api.Data.Location_Href file))
       = Some bytes
    /\ toHex bytes = api.Data.Checksum_Text file.
Proof. apply fetchFile_success_inv. Qed.

(** When the body of the loop of [Fetch] returns nil, its last two requests
    were for the primary and the filelists file; the cache holds the
    filelists file with the digest its entry declares, and the primary
    file with the digest its entry declares when the two files do not
    have the same base name. *)
Theorem Fetch_repo_success_verified
    (r : RepoFetcherImpl) (repo : bazeldnf.Repository) (w w' : World) :
  Fetch_repo r repo w = (Return None, w') ->
  exists repomd mirror primary filelists before,
    Repomd_File repomd api.PrimaryFileType = Some primary
    /\ Repomd_File repomd api.FilelistsFileType = Some filelists
    /\ requests w'
       = before ++ [fileURL_of mirror (api.Data.Location_Href primary);
                    fileURL_of mirror (api.Data.Location_Href filelists)]
    /\ (exists bytes,
          files w' !! (bazeldnf.Name repo,
                       path.Base (api.Data.Location_Href filelists)) = Some bytes
          /\ toHex bytes = api.Data.Checksum_Text filelists)
    /\ (path.Base (api.Data.Location_Href primary)
        ≠ path.Base (api.Data.Location_Href filelists) ->
        exists bytes,
          files w' !! (bazeldnf.Name repo,
                       path.Base (api.Data.Location_Href primary)) = Some bytes
          /\ toHex bytes = api.Data.Checksum_Text primary).
Proof.
  unfold Fetch_repo, bind.
  destruct (Fetch_sources r repo w) as [[[[urls sum]|e0]| |] w1]; try discriminate.
  unfold bind.
  destruct (resolveRepomd r repo urls sum w1) as [[[[repomd mirror]|e1]| |] w2];
    try discriminate.
  unfold bind.
  destruct (fetchFile r api.PrimaryFileType repo repomd mirror w2)
    as [[[e2|]| |] w3] eqn:Hprimary; try discriminate.
  unfold bind.
  destruct (fetchFile r api.FilelistsFileType repo repomd mirror w3)
    as [[[e3|]| |] w4] eqn:Hfilelists; try discriminate.
  intros [= <-].
  apply fetchFile_success_inv in Hprimary
    as (primary & pbytes & Hp & _ & Hpreq & Hpfile & Hpsum).
  pose proof Hfilelists as Hrun.
  apply fetchFile_success_inv in Hfilelists
    as (filelists & fbytes & Hf & _ & Hfreq & Hffile & Hfsum).
  exists repomd, mirror, primary, filelists, (requests w2).
  split; [exact Hp|]. split; [exact Hf|]. split.
  { rewrite Hfreq, Hpreq. now rewrite <- List.app_assoc. }
  split; [now exists fbytes|].
  intros Hbase. exists pbytes. split; [|exact Hpsum].
  pose proof (fetchFile_run r api.FilelistsFileType repo repomd mirror w3) as H.
  rewrite Hrun in H. destruct H as (file & resp & Hfile & _ & _ & _ & ->).
  assert (file = filelists) as -> by congruence.
  simpl. rewrite lookup_insert_ne; [exact Hpfile|].
  intros [= Heq]. now apply Hbase.
Qed.

(** A repository with neither a metalink nor a base URL makes no request
    and fails with the error that the mirrors are exhausted. *)
Theorem Fetch_repo_without_source
    (r : RepoFetcherImpl) (repo : bazeldnf.Repository) (w : World) :
  bazeldnf.Metalink repo = "" ->
  bazeldnf.Baseurl repo = "" ->
  Fetch_repo r repo w
  = (Return (Some ("failed to fetch repomd.xml for " +:+ bazeldnf.Name repo
                   +:+ ": " +:+ exhausted)), w).
Proof.
  intros Hm Hb. unfold Fetch_repo, Fetch_sources, bind.
  destruct (decide (bazeldnf.Metalink repo ≠ "")) as [n|_]; [contradiction|].
  destruct (decide (bazeldnf.Baseurl repo ≠ "")) as [n|_]; [contradiction|].
  reflexivity.
Qed.

End Success.


Lemma resolveRepomd_success_verified_witness :
  let run := resolveRepomd (ext := sample.ext) (sample.fetcher [sample.fedora])
               sample.fedora [sample.mirror_b] sample.repomd_sum sample.start in
  exists sha,
    files (snd run) !! ("fedora", "repomd.xml") = Some sha
    /\ sample.decode [(sample.repomd_doc, sample.repomd);
                      (sample.tampered_doc, sample.tampered)] sha
       = Ok sample.repomd
    /\ (sample.repomd_sum ≠ "" -> toHex sha = sample.repomd_sum).
Proof.
  intros run.
  apply (resolveRepomd_success_verified (ext := sample.ext)
           (sample.fetcher [sample.fedora]) sample.fedora [sample.mirror_b]
           sample.repomd_sum sample.start sample.repomd sample.pinned_b (snd run)).
  vm_compute. reflexivity.
Defined.

Lemma resolveRepomd_unverified_without_checksum_witness :
  let run := resolveRepomd (ext := sample.ext) (sample.fetcher [sample.updates])
               sample.updates [sample.mirror_down; sample.mirror_junk] ""
               sample.start in
  exhausted = exhausted
  /\ mirrors_fail (ext := sample.ext) (sample.fetcher [sample.updates]) sample.updates
       "" [sample.mirror_down; sample.mirror_junk] sample.start (snd run).
Proof.
  intros run.
  apply (resolveRepomd_unverified_without_checksum (ext := sample.ext)
           (sample.fetcher [sample.updates]) sample.updates
           [sample.mirror_down; sample.mirror_junk] sample.start exhausted (snd run)).
  vm_compute. reflexivity.
Defined.

Lemma index_mismatch_leaves_file_witness :
  let run := resolveRepomd (ext := sample.ext) (sample.fetcher [sample.fedora])
               sample.fedora [sample.mirror_a; sample.mirror_b] sample.repomd_sum
               sample.start in
  let e := mismatch sample.repomd_sum (toHex sample.tampered_doc) in
  exists sha,
    files (snd run) !! ("fedora", "repomd.xml") = Some sha
    /\ toHex sha ≠ sample.repomd_sum
    /\ e = mismatch sample.repomd_sum (toHex sha).
Proof.
  intros run e.
  apply (index_mismatch_leaves_file (ext := sample.ext)
           (sample.fetcher [sample.fedora]) sample.fedora
           [sample.mirror_a; sample.mirror_b] sample.repomd_sum sample.start e
           (snd run)).
  - vm_compute. reflexivity.
  - vm_compute. discriminate.
Defined.

Lemma fetchFile_success_verified_witness :
  let run := fetchFile (ext := sample.ext) (sample.fetcher [sample.fedora]) "primary"
               sample.fedora sample.repomd sample.pinned_b sample.start in
  exists file bytes,
    Repomd_File sample.repomd "primary" = Some file
    /\ api.Data.Checksum_Type file = "sha256"
    /\ requests (snd run)
       = requests sample.start
         ++ [fileURL_of (ext := sample.ext) sample.pinned_b (api.Data.Location_Href file)]
    /\ files (snd run) !! ("fedora", path.Base (api.Data.Location_Href file))
       = Some bytes
    /\ toHex bytes = api.Data.Checksum_Text file.
Proof.
  intros run.
  apply (fetchFile_success_verified (ext := sample.ext)
           (sample.fetcher [sample.fedora]) "primary" sample.fedora sample.repomd
           sample.pinned_b sample.start (snd run)).
  vm_compute. reflexivity.
Defined.

Lemma Fetch_repo_success_verified_witness :
  let run := Fetch_repo (ext := sample.ext) (sample.fetcher [sample.updates])
               sample.updates sample.start in
  exists repomd mirror primary filelists before,
    Repomd_File repomd api.PrimaryFileType = Some primary
    /\ Repomd_File repomd api.FilelistsFileType = Some filelists
    /\ requests (snd run)
       = before ++ [fileURL_of (ext := sample.ext) mirror (api.Data.Location_Href primary);
                    fileURL_of (ext := sample.ext) mirror
                      (api.Data.Location_Href filelists)]
    /\ (exists bytes,
          files (snd run) !! ("updates", path.Base (api.Data.Location_Href filelists))
          = Some bytes
          /\ toHex bytes = api.Data.Checksum_Text filelists)
    /\ (path.Base (api.Data.Location_Href primary)
        ≠ path.Base (api.Data.Location_Href filelists) ->
        exists bytes,
          files (snd run) !! ("updates", path.Base (api.Data.Location_Href primary))
          = Some bytes
          /\ toHex bytes = api.Data.Checksum_Text primary).
Proof.
  intros run.
  apply (Fetch_repo_success_verified (ext := sample.ext)
           (sample.fetcher [sample.updates]) sample.updates sample.start (snd run)).
  vm_compute. reflexivity.
Defined.

Lemma Fetch_repo_without_source_witness :
  let repo := {| bazeldnf.Name := "empty"; bazeldnf.Metalink := "";
                 bazeldnf.Baseurl := "" |} in
  Fetch_repo (ext := sample.ext) (sample.fetcher [repo]) repo sample.start
  = (Return (Some "failed to fetch repomd.xml for empty: All mirrors tried, could not download repomd.xml"),
     sample.start).
Proof.
  intros repo.
  exact (Fetch_repo_without_source (ext := sample.ext) (sample.fetcher [repo]) repo
           sample.start eq_refl eq_refl).
Defined.

Section MetalinkRuns.

Context {ext : Externals}.

(** ** [resolveMetaLink], by the way it ends *)

Ltac run_resolveMetaLink :=
  unfold resolveMetaLink, bind, Get, WriteToRepoDir, LoadMetaLink, ret; simpl.

(** When [resolveMetaLink] returns no error, it returns the metalink that
    the cached document decodes to, and a list that is not empty: the
    texts, in order, of the URLs tagged https in the entry of repomd.xml. *)
Theorem resolveMetaLink_success
    (r : RepoFetcherImpl) (repo : bazeldnf.Repository) (w : World)
    (m : option api.Metalink.t) (urls : list string) (w' : World) :
  resolveMetaLink r repo w = (Return (m, urls, None), w') ->
  exists metalink repomod doc,
    m = Some metalink
    /\ files w' !! (bazeldnf.Name repo, "metalink") = Some doc
    /\ xml_Unmarshal_Metalink doc = Ok metalink
    /\ Metalink_Repomod metalink = Some repomod
    /\ urls = map api.URL.Text
                (filter (fun u => api.URL.Protocol u = "https")
                   (api.File.Resources_URLs repomod))
    /\ urls ≠ [].
Proof.
  run_resolveMetaLink.
  destruct (Getter_ r _ _) as [resp|]; simpl; [|discriminate].
  destruct (faults w !! _); simpl; [discriminate|].
  destruct (failure _); simpl; [discriminate|].
  rewrite lookup_insert_eq.
  destruct (xml_Unmarshal_Metalink _) as [metalink|] eqn:Hxml; simpl; [|discriminate].
  destruct (Metalink_Repomod metalink) as [repomod|] eqn:Hrepomod; simpl;
    [|discriminate].
  destruct (decide _) as [|Hlen]; simpl; [discriminate|].
  intros [= <- <- <-]. exists metalink, repomod, (delivered (Body resp)).
  repeat split; auto.
  - simpl. apply lookup_insert_eq.
  - apply https_urls_filter.
  - intros Hnil. apply Hlen. now rewrite Hnil.
Qed.

(** When [resolveMetaLink] returns an error, it returns no URL, and it
    returns a metalink only with the error that none of its URLs is
    tagged https. *)
Theorem resolveMetaLink_error
    (r : RepoFetcherImpl) (repo : bazeldnf.Repository) (w : World)
    (m : option api.Metalink.t) (urls : list string) (e : string) (w' : World) :
  resolveMetaLink r repo w = (Return (m, urls, Some e), w') ->
  urls = []
  /\ (m = None \/ e = "Metalink contains no https url to a rpomd.xml file").
Proof.
  run_resolveMetaLink.
  destruct (Getter_ r _ _) as [resp|]; simpl; [|intros [= <- <- <-]; auto].
  destruct (faults w !! _); simpl; [intros [= <- <- <-]; auto|].
  destruct (failure _); simpl; [intros [= <- <- <-]; auto|].
  rewrite lookup_insert_eq.
  destruct (xml_Unmarshal_Metalink _) as [metalink|]; simpl;
    [|intros [= <- <- <-]; auto].
  destruct (Metalink_Repomod metalink); simpl; [|intros [= <- <- <-]; auto].
  destruct (decide _); simpl; [|discriminate].
  intros [= <- <- <-]. auto.
Qed.

(** Once the metalink document is fetched and its cache file can be
    created, the cache holds the bytes delivered, however
    [resolveMetaLink] ends: the document is stored before it is decoded. *)
Theorem metalink_stored_before_decoding
    (r : RepoFetcherImpl) (repo : bazeldnf.Repository) (w : World) (resp : Response) :
  Getter_ r (requests w) (bazeldnf.Metalink repo) = Ok resp ->
  faults w !! (bazeldnf.Name repo, "metalink") = None ->
  files (snd (resolveMetaLink r repo w)) !! (bazeldnf.Name repo, "metalink")
  = Some (delivered (Body resp)).
Proof.
  intros Hget Hfault. run_resolveMetaLink. rewrite Hget. simpl.
  rewrite Hfault. simpl.
  destruct (failure _); simpl; [apply lookup_insert_eq|].
  rewrite lookup_insert_eq.
  destruct (xml_Unmarshal_Metalink _) as [metalink|]; simpl;
    [|apply lookup_insert_eq].
  destruct (Metalink_Repomod metalink); simpl; [|apply lookup_insert_eq].
  destruct (decide _); simpl; apply lookup_insert_eq.
Qed.

End MetalinkRuns.

Lemma resolveMetaLink_success_witness :
  let run := resolveMetaLink (ext := sample.ext) (sample.fetcher [sample.fedora])
               sample.fedora sample.start in
  exists metalink repomod doc,
    Some sample.metalink = Some metalink
    /\ files (snd run) !! ("fedora", "metalink") = Some doc
    /\ sample.decode [(sample.metalink_doc, sample.metalink)] doc = Ok metalink
    /\ Metalink_Repomod metalink = Some repomod
    /\ [sample.mirror_a; sample.mirror_b]
       = map api.URL.Text
           (filter (fun u => api.URL.Protocol u = "https")
              (api.File.Resources_URLs repomod))
    /\ [sample.mirror_a; sample.mirror_b] ≠ [].
Proof.
  intros run.
  apply (resolveMetaLink_success (ext := sample.ext) (sample.fetcher [sample.fedora])
           sample.fedora sample.start (Some sample.metalink)
           [sample.mirror_a; sample.mirror_b] (snd run)).
  vm_compute. reflexivity.
Defined.

Lemma resolveMetaLink_error_witness :
  let repo := {| bazeldnf.Name := "gone";
                 bazeldnf.Metalink := "https://gone.example/metalink";
                 bazeldnf.Baseurl := "" |} in
  let run := resolveMetaLink (ext := sample.ext) (sample.fetcher [repo]) repo
               sample.start in
  @nil string = []
  /\ (@None api.Metalink.t = None
      \/ "dial tcp: no such host" = "Metalink contains no https url to a rpomd.xml file").
Proof.
  intros repo run.
  apply (resolveMetaLink_error (ext := sample.ext) (sample.fetcher [repo]) repo
           sample.start None [] "dial tcp: no such host" (snd run)).
  vm_compute. reflexivity.
Defined.

Lemma metalink_stored_before_decoding_witness :
  let repo := {| bazeldnf.Name := "junk"; bazeldnf.Metalink := sample.mirror_junk;
                 bazeldnf.Baseurl := "" |} in
  files (snd (resolveMetaLink (ext := sample.ext) (sample.fetcher [repo]) repo
                sample.start)) !! ("junk", "metalink")
  = Some sample.junk_doc.
Proof.
  intros repo.
  exact (metalink_stored_before_decoding (ext := sample.ext) (sample.fetcher [repo])
           repo sample.start
           {| Body := {| delivered := sample.junk_doc; failure := None |} |}
           eq_refl eq_refl).
Defined.

(** ** The form of [toHex] *)

Lemma length_be (n : nat) (x : Z) : length (sha256.be n x) = n.
Proof.
  revert x. induction n as [|n IH]; intros x; [reflexivity|].
  cbn [sha256.be]. rewrite length_app, IH. simpl. lia.
Qed.

Lemma be_bytes (n : nat) (x : Z) :
  Forall (fun b => (0 <= b < 256)%Z) (sha256.be n x).
Proof.
  revert x. induction n as [|n IH]; intros x; [constructor|].
  cbn [sha256.be]. apply Forall_app. split; [apply IH|]. constructor; [|constructor].
  change 0xff%Z with (Z.ones 8). rewrite Z.land_ones by lia.
  apply Z.mod_pos_bound. reflexivity.
Qed.

Lemma round_length (st : list Z * list Z) (k : Z) :
  length (fst st) = 8 -> length (fst (sha256.round st k)) = 8.
Proof.
  destruct st as [l win]. simpl. intros Hl.
  do 9 (destruct l as [|? l]; try discriminate).
  unfold sha256.round.
  do 17 (destruct win as [|? win]; [reflexivity|]).
  reflexivity.
Qed.

Lemma rounds_length (ks : list Z) (st : list Z * list Z) :
  length (fst st) = 8 -> length (fst (fold_left sha256.round ks st)) = 8.
Proof.
  revert st. induction ks as [|k ks IH]; intros st Hst; [exact Hst|].
  simpl. apply IH, round_length, Hst.
Qed.

Lemma block_length (h ws : list Z) :
  length h = 8 -> length (sha256.block h ws) = 8.
Proof.
  intros Hh. unfold sha256.block.
  rewrite length_zip_with, Hh, rounds_length by exact Hh. reflexivity.
Qed.

Lemma blocks_length (fuel : nat) (h ws : list Z) :
  length h = 8 -> length (sha256.blocks h ws fuel) = 8.
Proof.
  revert h ws. induction fuel as [|fuel IH]; intros h ws Hh; simpl; [exact Hh|].
  destruct ws; [exact Hh|]. apply IH, block_length, Hh.
Qed.

Lemma length_flat_be (l : list Z) : length (flat_map (sha256.be 4) l) = 4 * length l.
Proof.
  induction l as [|x l IH]; [reflexivity|].
  cbn [flat_map]. rewrite length_app, length_be, IH. simpl. lia.
Qed.

Lemma Sum_length (bs : list Z) : length (sha256.Sum bs) = 32.
Proof.
  unfold sha256.Sum. cbv zeta.
  rewrite length_flat_be, blocks_length by reflexivity. reflexivity.
Qed.

Lemma Sum_bytes (bs : list Z) :
  Forall (fun b => (0 <= b < 256)%Z) (sha256.Sum bs).
Proof.
  unfold sha256.Sum.
  generalize (sha256.blocks sha256.init
                (sha256.words (sha256.pad bs) (length (sha256.pad bs)))
                (length (sha256.words (sha256.pad bs) (length (sha256.pad bs))))).
  induction l as [|x l IH]; [constructor|].
  cbn [flat_map]. apply Forall_app. split; [apply be_bytes | exact IH].
Qed.

Lemma digit_lower_hex (n : Z) : (0 <= n < 16)%Z -> lower_hex (hex.digit n) = true.
Proof.
  intros Hn.
  assert (forallb (fun k => lower_hex (hex.digit (Z.of_nat k))) (seq 0 16) = true)
    as Hall by reflexivity.
  rewrite forallb_forall in Hall. specialize (Hall (Z.to_nat n)).
  rewrite Z2Nat.id in Hall by lia. apply Hall, in_seq. lia.
Qed.

Lemma length_EncodeToString (bs : list Z) :
  String.length (hex.EncodeToString bs) = 2 * length bs.
Proof. induction bs as [|b bs IH]; simpl; [reflexivity|]. rewrite IH. lia. Qed.

Lemma EncodeToString_lower_hex (bs : list Z) :
  Forall (fun b => (0 <= b < 256)%Z) bs ->
  forallb lower_hex (list_ascii_of_string (hex.EncodeToString bs)) = true.
Proof.
  induction 1 as [|b bs Hb _ IH]; [reflexivity|].
  cbn [hex.EncodeToString list_ascii_of_string forallb].
  rewrite IH, !digit_lower_hex; [reflexivity| |].
  - change 15%Z with (Z.ones 4). rewrite Z.land_ones by lia.
    apply Z.mod_pos_bound. reflexivity.
  - rewrite Z.shiftr_div_pow2 by lia. change (2 ^ 4)%Z with 16%Z.
    split; [apply Z.div_pos; lia | apply Z.div_lt_upper_bound; lia].
Qed.

Lemma toHex_hex_digest (written : string) : hex_digest (toHex written) = true.
Proof.
  unfold hex_digest, toHex.
  rewrite length_EncodeToString, Sum_length, EncodeToString_lower_hex
    by apply Sum_bytes.
  reflexivity.
Qed.

(** [toHex] returns 64 characters, each a digit or a letter from a to f in
    lowercase, whatever was written to the hash. *)
Theorem toHex_format (written : string) :
  String.length (toHex written) = 64
  /\ Forall (fun c => In c (list_ascii_of_string "0123456789abcdef"))
       (list_ascii_of_string (toHex written)).
Proof.
  pose proof (toHex_hex_digest written) as H. unfold hex_digest in H.
  apply andb_prop in H as [Hlen Hhex]. split.
  - now apply Nat.eqb_eq in Hlen.
  - apply List.Forall_forall. intros c Hc.
    rewrite forallb_forall in Hhex. specialize (Hhex c Hc).
    unfold lower_hex in Hhex. apply existsb_exists in Hhex as (d & Hd & Heq).
    apply Ascii.eqb_eq in Heq. now subst d.
Qed.

Section Malformed.

Context {ext : Externals}.

(** An expected checksum that is not 64 lowercase hexadecimal digits is
    never matched: a recorded checksum of that kind makes [resolveRepomd]
    return the mismatch error at the first candidate that is fetched
    whole, and a typed file whose entry declares one is never accepted. *)
Theorem malformed_checksum_never_matches
    (r : RepoFetcherImpl) (repo : bazeldnf.Repository) (expected : string) :
  hex_digest expected = false ->
  (expected ≠ "" ->
   forall pre u rest w w1 sha,
     mirrors_fail r repo expected pre w w1 ->
     index_fetched r repo u w1 sha ->
     exists w',
       resolveRepomd r repo (pre ++ u :: rest) expected w
       = (Return (Err (mismatch expected (toHex sha))), w'))
  /\ (forall fileType repomd mirror w file,
        Repomd_File repomd fileType = Some file ->
        api.Data.Checksum_Text file = expected ->
        exists e w',
          fetchFile r fileType repo repomd mirror w = (Return (Some e), w')).
Proof.
  intros Hbad.
  assert (forall written, toHex written ≠ expected) as Hne.
  { intros written Heq. rewrite <- Heq, toHex_hex_digest in Hbad. discriminate. }
  split.
  - intros Hsum pre u rest w w1 sha Hpre Hfetched.
    exists (put_file (index_key repo) sha (announced u w1)).
    rewrite (resolveRepomd_failed _ _ _ _ _ _ _ Hpre).
    unfold resolveRepomd, bind. simpl. unfold bind at 1.
    now rewrite (iter_mismatch _ _ _ _ _ _ Hfetched Hsum (Hne sha)).
  - intros fileType repomd mirror w file Hfile Htext.
    pose proof (fetchFile_run r fileType repo repomd mirror w) as Hrun.
    destruct (fetchFile r fileType repo repomd mirror w) as [[[e|]| |] w'];
      try contradiction; [eauto|].
    destruct Hrun as (file' & resp & Hfile' & _ & _ & Hsum & _).
    assert (file' = file) as -> by congruence.
    unfold Data_SHA256 in Hsum. destruct (decide _); [|discriminate].
    injection Hsum as Hsum. rewrite Htext in Hsum. now destruct (Hne _ (eq_sym Hsum)).
Qed.

End Malformed.

Lemma malformed_checksum_never_matches_witness :
  let upper := "CB9E9C8A7A099C316EC70516B12B8D020BA9C52B52B6009BAB440A86FE777F11" in
  exists w',
    resolveRepomd (ext := sample.ext) (sample.fetcher [sample.fedora]) sample.fedora
      ([] ++ sample.mirror_b :: [sample.mirror_a]) upper sample.start
    = (Return (Err (mismatch upper (toHex sample.repomd_doc))), w').
Proof.
  intros upper.
  destruct (malformed_checksum_never_matches (ext := sample.ext)
              (sample.fetcher [sample.fedora]) sample.fedora upper) as [Hindex _].
  - vm_compute. reflexivity.
  - apply Hindex with (w1 := sample.start).
    + discriminate.
    + apply fail_nil.
    + exists {| Body := {| delivered := sample.repomd_doc; failure := None |} |}.
      repeat split; reflexivity.
Defined.

Lemma TrimSuffix_id (s suffix : string) :
  ends_with s suffix = false -> strings.TrimSuffix s suffix = s.
Proof.
  induction s as [|c s IH]; simpl.
  - now destruct (decide ("" = suffix)).
  - destruct (decide (String c s = suffix)) as [e|_]; [discriminate|].
    intros Hs. now rewrite IH.
Qed.

Section FetchMore.

Context {ext : Externals}.

(** [Fetch] stops at the first repository whose body returns an error: it
    returns that error, and the world it leaves is the one that body left. *)
Theorem Fetch_stops_at_first_failure
    (r : RepoFetcherImpl) (pre : list bazeldnf.Repository)
    (repo : bazeldnf.Repository) (rest : list bazeldnf.Repository)
    (w w1 : World) (e : string) (w2 : World) :
  Repos r = pre ++ repo :: rest ->
  Fetch_loop r pre w = (Return None, w1) ->
  Fetch_repo r repo w1 = (Return (Some e), w2) ->
  Fetch r w = (Return (Some e), w2).
Proof.
  intros Hrepos Hpre Hrepo. unfold Fetch. rewrite Hrepos.
  now apply Fetch_fails_fast with w1.
Qed.

(** An error of [Fetch] is the error of one of its repositories, under one
    of five headings: four name the stage and that repository, the fifth,
    for the checksum of the metalink, names the stage alone. *)
Theorem Fetch_error_stage (r : RepoFetcherImpl) (w : World) (e : string) (w' : World) :
  Fetch r w = (Return (Some e), w') ->
  exists repo,
    In repo (Repos r)
    /\ ((exists stage detail,
            In stage ["failed to resolve metalink for ";
                      "failed to fetch repomd.xml for ";
                      "failed to fetch primary.xml for ";
                      "failed to fetch filelists.xml for "]
            /\ e = stage +:+ bazeldnf.Name repo +:+ ": " +:+ detail)
        \/ exists detail, e = "failed to get sha256sum of repomd file: " +:+ detail).
Proof.
  unfold Fetch. generalize (Repos r) as repos. intros repos. revert w.
  induction repos as [|repo rest IH]; intros w; simpl; [discriminate|].
  unfold bind.
  destruct (Fetch_repo r repo w) as [[[e1|]| |] w1] eqn:Hrepo; try discriminate.
  - intros [= <- <-]. exists repo. split; [now left|].
    now apply Fetch_repo_error_shape with r w w1.
  - intros Hrest. destruct (IH _ Hrest) as (repo' & Hin & Hshape).
    exists repo'. split; [now right | exact Hshape].
Qed.

(** One slash at the end of the base URL makes no difference: the candidate
    is the base URL less that slash, followed by /repodata/repomd.xml. *)
Theorem Baseurl_trailing_slash
    (r : RepoFetcherImpl) (repo : bazeldnf.Repository) (base : string) (w : World) :
  bazeldnf.Metalink repo = "" ->
  Fetch_sources r (with_Baseurl repo (base +:+ "/")) w
  = (Return (Ok ([base +:+ "/repodata/repomd.xml"], "")), w)
  /\ (base ≠ "" ->
      ends_with base "/" = false ->
      Fetch_sources r (with_Baseurl repo base) w
      = (Return (Ok ([base +:+ "/repodata/repomd.xml"], "")), w)
      /\ Fetch_repo r (with_Baseurl repo base) w
         = Fetch_repo r (with_Baseurl repo (base +:+ "/")) w).
Proof.
  intros Hm.
  assert (forall b, b ≠ "" ->
            Fetch_sources r (with_Baseurl repo b) w
            = (Return (Ok ([strings.TrimSuffix b "/" +:+ "/repodata/repomd.xml"], "")),
               w)) as Hsrc.
  { intros b Hb. unfold Fetch_sources. simpl.
    destruct (decide (bazeldnf.Metalink repo ≠ "")) as [n|_]; [contradiction|].
    destruct (decide (b ≠ "")) as [_|n]; [reflexivity | contradiction]. }
  assert (Fetch_sources r (with_Baseurl repo (base +:+ "/")) w
          = (Return (Ok ([base +:+ "/repodata/repomd.xml"], "")), w)) as Hslash.
  { rewrite Hsrc by (destruct base; discriminate). now rewrite TrimSuffix_app. }
  split; [exact Hslash|].
  intros Hb Hend.
  assert (Fetch_sources r (with_Baseurl repo base) w
          = (Return (Ok ([base +:+ "/repodata/repomd.xml"], "")), w)) as Hplain.
  { rewrite Hsrc by exact Hb. now rewrite TrimSuffix_id. }
  split; [exact Hplain|].
  unfold Fetch_repo, bind. rewrite Hplain, Hslash.
  now rewrite !resolveRepomd_with_Baseurl.
Qed.

End FetchMore.

Lemma Fetch_stops_at_first_failure_witness :
  let r := sample.fetcher [sample.updates; sample.fedora; sample.updates] in
  let w1 := snd (Fetch_repo (ext := sample.ext) r sample.updates sample.start) in
  let w2 := snd (Fetch_repo (ext := sample.ext) r sample.fedora w1) in
  Fetch (ext := sample.ext) r sample.start
  = (Return (Some ("failed to fetch repomd.xml for fedora: "
                   +:+ mismatch sample.repomd_sum (toHex sample.tampered_doc))), w2).
Proof.
  intros r w1 w2.
  apply (Fetch_stops_at_first_failure (ext := sample.ext) r [sample.updates]
           sample.fedora [sample.updates] sample.start w1).
  - reflexivity.
  - vm_compute. reflexivity.
  - vm_compute. reflexivity.
Defined.

Lemma Fetch_error_stage_witness :
  let r := sample.fetcher [sample.updates; sample.fedora] in
  let e := "failed to fetch repomd.xml for fedora: "
           +:+ mismatch sample.repomd_sum (toHex sample.tampered_doc) in
  exists repo,
    In repo (Repos r)
    /\ ((exists stage detail,
            In stage ["failed to resolve metalink for ";
                      "failed to fetch repomd.xml for ";
                      "failed to fetch primary.xml for ";
                      "failed to fetch filelists.xml for "]
            /\ e = stage +:+ bazeldnf.Name repo +:+ ": " +:+ detail)
        \/ exists detail, e = "failed to get sha256sum of repomd file: " +:+ detail).
Proof.
  intros r e.
  apply (Fetch_error_stage (ext := sample.ext) r sample.start e
           (snd (Fetch (ext := sample.ext) r sample.start))).
  vm_compute. reflexivity.
Defined.

Lemma Baseurl_trailing_slash_witness :
  let r := sample.fetcher [sample.updates] in
  Fetch_sources (ext := sample.ext) r
    (with_Baseurl sample.updates ("https://b.example/fedora" +:+ "/")) sample.start
  = (Return (Ok (["https://b.example/fedora" +:+ "/repodata/repomd.xml"], "")),
     sample.start)
  /\ Fetch_repo (ext := sample.ext) r
       (with_Baseurl sample.updates "https://b.example/fedora") sample.start
     = Fetch_repo (ext := sample.ext) r
         (with_Baseurl sample.updates ("https://b.example/fedora" +:+ "/")) sample.start.
Proof.
  intros r.
  destruct (Baseurl_trailing_slash (ext := sample.ext) r sample.updates
              "https://b.example/fedora" sample.start eq_refl) as [Hslash Hplain].
  split; [exact Hslash|].
  apply Hplain; [discriminate | reflexivity].
Defined.

(** ** The base path, cut by string *)

Lemma Clean_rooted_elem (es : list string) (e : string) :
  Forall plain_elem es ->
  plain_elem e ->
  path.Clean (rooted es +:+ "/" +:+ e +:+ "/") = rooted es +:+ "/" +:+ e.
Proof.
  intros Hes He.
  rewrite rooted_joined. unfold path.Clean.
  change ("/" +:+ joined es (e +:+ "/")) with (String path.slash (joined es (e +:+ "/"))).
  destruct (decide (String path.slash (joined es (e +:+ "/")) = "")) as [Hnil|_];
    [discriminate|].
  simpl.
  destruct (decide (path.slash = path.slash)) as [_|n]; [| now destruct n].
  rewrite components_joined by exact Hes.
  change (e +:+ "/") with (e +:+ "/" +:+ "").
  rewrite components_elem by apply He.
  change (path.components "") with [""].
  change (es ++ [e; ""]) with (es ++ [e] ++ [""]).
  rewrite List.app_assoc. simpl. rewrite clean_elem_empty, fold_left_app.
  rewrite (clean_plain true (es ++ [e]))
    by (apply Forall_app; split; [exact Hes|]; constructor; [exact He | constructor]).
  simpl. rewrite clean_elem_empty, app_nil_r, rev_involutive.
  apply Join_rooted.
Qed.

Lemma Dir_rooted_file (es : list string) (e : string) :
  Forall plain_elem es ->
  plain_elem e ->
  path.Dir (rooted es +:+ "/" +:+ e +:+ "/repomd.xml") = rooted es +:+ "/" +:+ e.
Proof.
  intros Hes He. unfold path.Dir.
  replace (rooted es +:+ "/" +:+ e +:+ "/repomd.xml")
    with (((rooted es +:+ "/" +:+ e) +:+ "/") +:+ "repomd.xml")
    by now rewrite !append_assoc.
  rewrite Split_after_slash by reflexivity. simpl.
  rewrite !append_assoc. now apply Clean_rooted_elem.
Qed.

Section BasePath.

Context {ext : Externals}.

(** The base path of the pinned mirror is its directory less the string
    "repodata", wherever that string ends: for an index at
    /e1/.../en/STEMrepodata/repomd.xml it is /e1/.../en/STEM, with the
    slash at its end only when STEM is empty. *)
Theorem base_path_cut_by_string
    (r : RepoFetcherImpl) (repo : bazeldnf.Repository) (urls : list string)
    (sha256sum : string) (w : World) (repomd : api.Repomd.t) (mirror : url.URL)
    (w1 : World) :
  resolveRepomd r repo urls sha256sum w = (Return (Ok (repomd, mirror)), w1) ->
  exists u parsed,
    In u urls
    /\ url_Parse u = Ok parsed
    /\ forall es stem,
        Forall plain_elem es ->
        plain_elem (stem +:+ "repodata") ->
        url.Path parsed = rooted es +:+ "/" +:+ (stem +:+ "repodata") +:+ "/repomd.xml" ->
        url.Path mirror = rooted es +:+ "/" +:+ stem.
Proof.
  intros Hrun.
  apply resolveRepomd_found_inv in Hrun
    as (pre & u & rest & w0 & sha & parsed & -> & _ & _ & _ & _ & Hparse & -> & _).
  exists u, parsed. split; [apply in_or_app; right; now left|].
  split; [exact Hparse|].
  intros es stem Hes Hstem Hpath. simpl. rewrite Hpath.
  rewrite Dir_rooted_file by assumption.
  replace (rooted es +:+ "/" +:+ stem +:+ "repodata")
    with ((rooted es +:+ "/" +:+ stem) +:+ "repodata")
    by now rewrite !append_assoc.
  apply TrimSuffix_app.
Qed.

End BasePath.

Lemma base_path_cut_by_string_witness :
  let u := "https://b.example/fedora/myrepodata/repomd.xml" in
  let r := {| Getter_ := sample.serve [(u, sample.body sample.repomd_doc)];
              Repos := [sample.updates];
              CacheHelper_ := {| CacheDir := "/var/cache/bazeldnf" |} |} in
  let run := resolveRepomd (ext := sample.ext) r sample.updates [u] "" sample.start in
  fst run = Return (Ok (sample.repomd, url.set_Path sample.pinned_b "/fedora/my"))
  /\ exists u' parsed,
      In u' [u]
      /\ sample.Parse u' = Ok parsed
      /\ (url.Path parsed
          = rooted ["fedora"] +:+ "/" +:+ ("my" +:+ "repodata") +:+ "/repomd.xml" ->
          "/fedora/my" = rooted ["fedora"] +:+ "/" +:+ "my").
Proof.
  intros u r run.
  assert (run = (Return (Ok (sample.repomd, url.set_Path sample.pinned_b "/fedora/my")),
                 snd run)) as Hrun by (vm_compute; reflexivity).
  split; [now rewrite Hrun|].
  destruct (base_path_cut_by_string (ext := sample.ext) r sample.updates [u] ""
              sample.start sample.repomd
              (url.set_Path sample.pinned_b "/fedora/my") (snd run) Hrun)
    as (u' & parsed & Hin & Hparse & Hbase).
  exists u', parsed. split; [exact Hin|]. split; [exact Hparse|].
  apply (Hbase ["fedora"] "my").
  - repeat constructor; discriminate.
  - repeat split; discriminate.
Defined.
